(** * fetch_ind_eng_tests_bbb_2025.py: match filter and delivery flattener

    A shallow embedding of [within_series_window], [is_ind_eng_test],
    [flatten_match] and the control flow of [main], together with the
    properties the specification states about them.

    The Python objects handled are exactly the ones [json.load] builds, so
    one inductive type of decoded values suffices.  Exceptions are made
    explicit with a small error monad. *)

From Stdlib Require Import List String Ascii ZArith Bool Lia SpecFloat DecimalString.
From Stdlib Require Import Sorted.
Import ListNotations.
Open Scope string_scope.
Open Scope Z_scope.
Set Warnings "-register-all".

(* ------------------------------------------------------------------ *)
(** ** Decoded JSON values *)

(** What [json.load] returns: [None], [bool], [int], [float], [str],
    [list] and [dict].  A [dict] is kept as its items in insertion order
    (its keys are pairwise distinct; lookup takes the entry of the key).
    A [str] is the sequence of its characters, one [ascii] each. *)
Inductive value : Type :=
| VNone
| VBool (b : bool)
| VInt (n : Z)
| VFloat (f : spec_float)
| VStr (s : string)
| VList (l : list value)
| VDict (kv : list (string * value)).

(** The exceptions that the modelled code can raise; [LibraryError] is any
    other exception, raised inside a library (requests, zipfile, pandas,
    print), under its name. *)
Inductive exn : Type :=
| AttributeError
| TypeError
| IndexError
| KeyError
| SystemExit (msg : string)
| LibraryError (name : string).

Inductive result (A : Type) : Type :=
| Ok (a : A)
| Raise (e : exn).
Arguments Ok {A} a.
Arguments Raise {A} e.

Definition bind {A B} (c : result A) (k : A -> result B) : result B :=
  match c with
  | Ok a => k a
  | Raise e => Raise e
  end.

Notation "x <- c ;; k" := (bind c (fun x => k))
  (at level 61, c at next level, right associativity).

Definition is_ok {A} (c : result A) : bool :=
  match c with Ok _ => true | Raise _ => false end.

(* ------------------------------------------------------------------ *)
(** ** The Python operations the script uses *)

Fixpoint assoc (k : string) (kv : list (string * value)) : option value :=
  match kv with
  | [] => None
  | (k', v) :: rest => if String.eqb k k' then Some v else assoc k rest
  end.

(** [o.get(k, dflt)]: only a [dict] has the method. *)
Definition py_get (o : value) (k : string) (dflt : value) : result value :=
  match o with
  | VDict kv => Ok (match assoc k kv with Some v => v | None => dflt end)
  | _ => Raise AttributeError
  end.

(** Truth value of an object, as tested by [or], [if] and [not]. *)
Definition truthy (v : value) : bool :=
  match v with
  | VNone => false
  | VBool b => b
  | VInt n => negb (n =? 0)
  | VFloat (S754_zero _) => false
  | VFloat _ => true
  | VStr s => negb (String.eqb s "")
  | VList l => match l with [] => false | _ => true end
  | VDict kv => match kv with [] => false | _ => true end
  end.

(** [a or b] where [b] is a value already at hand (a literal). *)
Definition py_or (a b : value) : value := if truthy a then a else b.

Definition chars (s : string) : list value :=
  map (fun c => VStr (String c "")) (list_ascii_of_string s).

(** The elements a [for] loop, [set(...)], [map] or [join] draws from an
    object: the items of a list, the characters of a str, the keys of a
    dict; anything else is not iterable. *)
Definition py_iter (v : value) : result (list value) :=
  match v with
  | VList l => Ok l
  | VStr s => Ok (chars s)
  | VDict kv => Ok (map (fun p => VStr (fst p)) kv)
  | _ => Raise TypeError
  end.

(** [o[0]].  The keys of a decoded dict are strings, so [0] is never one. *)
Definition py_index0 (o : value) : result value :=
  match o with
  | VList (x :: _) => Ok x
  | VList [] => Raise IndexError
  | VStr (String c _) => Ok (VStr (String c ""))
  | VStr EmptyString => Raise IndexError
  | VDict _ => Raise KeyError
  | _ => Raise TypeError
  end.

(** [str.lower] on one character: the capitals are A-Z and, above 127,
    the accented capitals 192-214 and 216-222; each has its small letter
    32 places further. *)
Definition lower_char (c : ascii) : ascii :=
  let n := nat_of_ascii c in
  if ((Nat.leb 65 n && Nat.leb n 90)
      || (Nat.leb 192 n && Nat.leb n 214)
      || (Nat.leb 216 n && Nat.leb n 222))%bool
  then ascii_of_nat (n + 32) else c.

Fixpoint lower (s : string) : string :=
  match s with
  | EmptyString => EmptyString
  | String c s' => String (lower_char c) (lower s')
  end.

(** [o.lower()]: a method of [str] only. *)
Definition py_lower (o : value) : result string :=
  match o with
  | VStr s => Ok (lower s)
  | _ => Raise AttributeError
  end.

(** [sep.join(xs)] on the elements already drawn: every item must be a str. *)
Fixpoint strs (xs : list value) : result (list string) :=
  match xs with
  | [] => Ok []
  | VStr s :: rest => ss <- strs rest ;; Ok (s :: ss)
  | _ :: _ => Raise TypeError
  end.

Definition py_join (sep : string) (xs : list value) : result string :=
  ss <- strs xs ;; Ok (String.concat sep ss).

(** A [set] is observed here through membership only, so it is kept as the
    list of its elements.  Building it hashes every element, and lists and
    dicts are unhashable. *)
Definition hashable (v : value) : bool :=
  match v with
  | VList _ | VDict _ => false
  | _ => true
  end.

Definition py_set (xs : list value) : result (list value) :=
  if forallb hashable xs then Ok xs else Raise TypeError.

(** [s == v] for a str [s]: a str equals only an equal str. *)
Definition str_eq (s : string) (v : value) : bool :=
  match v with
  | VStr t => String.eqb s t
  | _ => false
  end.

Definition py_in (s : string) (set : list value) : bool := existsb (str_eq s) set.

(** [{n1, n2, ...}.issubset(set)] for str members. *)
Definition issubset (names : list string) (set : list value) : bool :=
  forallb (fun n => py_in n set) names.

(* ------------------------------------------------------------------ *)
(** ** Calendar dates *)

Record date : Type := mkdate { year : Z; month : Z; day : Z }.

(** [a <= b] on [datetime.date]: by year, then month, then day. *)
Definition date_le (a b : date) : bool :=
  (year a <? year b)
  || ((year a =? year b)
      && ((month a <? month b)
          || ((month a =? month b) && (day a <=? day b)))).

Definition START : date := mkdate 2025 6 1.
Definition END : date := mkdate 2025 8 31.

Definition in_window (dt : date) : bool := date_le START dt && date_le dt END.

(** A reader of the extended calendar form [YYYY-MM-DD], the form of
    Cricsheet's dates; it is one admissible instance of the library parser
    that the filter is parameterised by below. *)
Definition digit (c : ascii) : option Z :=
  let n := nat_of_ascii c in
  if (Nat.leb 48 n && Nat.leb n 57)%bool then Some (Z.of_nat (n - 48)) else None.

Fixpoint number (acc : Z) (cs : list ascii) : option Z :=
  match cs with
  | [] => Some acc
  | c :: rest =>
      match digit c with
      | Some d => number (10 * acc + d) rest
      | None => None
      end
  end.

Definition is_leap (y : Z) : bool :=
  ((y mod 4 =? 0) && negb (y mod 100 =? 0)) || (y mod 400 =? 0).

Definition days_in_month (y m : Z) : Z :=
  if m =? 2 then (if is_leap y then 29 else 28)
  else if (m =? 4) || (m =? 6) || (m =? 9) || (m =? 11) then 30
  else 31.

Definition valid_date (y m d : Z) : bool :=
  (1 <=? y) && (1 <=? m) && (m <=? 12) && (1 <=? d) && (d <=? days_in_month y m).

Definition iso_ymd (s : string) : option date :=
  match list_ascii_of_string s with
  | [y1; y2; y3; y4; "-"%char; m1; m2; "-"%char; d1; d2] =>
      match number 0 [y1; y2; y3; y4], number 0 [m1; m2], number 0 [d1; d2] with
      | Some y, Some m, Some d =>
          if valid_date y m d then Some (mkdate y m d) else None
      | _, _, _ => None
      end
  | _ => None
  end.

(* ------------------------------------------------------------------ *)
(** ** One output row *)

(** The dict appended to [balls] for each delivery (lines 80-112), one
    field per key.  [date_list] and [teams] are results of [join], hence
    always str; [innings] is the counter of [enumerate]. *)
Module Ball.
Record t : Type := mk {
  match_id : value;
  season : value;
  date_list : string;
  venue : value;
  city : value;
  teams : string;
  innings : Z;
  batting_team : value;
  over : value;
  ball_label : value;
  batter : value;
  bowler : value;
  non_striker : value;
  runs_batter : value;
  runs_extras : value;
  runs_total : value;
  extra_byes : value;
  extra_legbyes : value;
  extra_wides : value;
  extra_noballs : value;
  extra_penalty : value;
  wicket_kind : value;
  wicket_player_out : value;
  wicket_fielders : value
}.
End Ball.

(** The match-level locals of [flatten_match] (lines 64-69) that the loop
    body reads. *)
Record match_fields : Type := mkmatch {
  m_match_id : value;
  m_venue : value;
  m_city : value;
  m_teams : value;
  m_dates : value;
  m_season : value
}.

(** One read of the scan (lines 123-128): a name of the archive and what
    [json.load] makes of the member opened under it ([None] when it
    raises). *)
Record entry : Type := mkentry { name : string; content : option value }.

(** One stored member of the zip archive: the name it is stored under and
    what opening and decoding it gives: the exception of [zf.open], or
    what [json.load] makes of the opened member. *)
Record member : Type := mkmember { stored_as : string; opens_to : result (option value) }.

(** What lines 140-149 do to [OUT_CSV]: they raise before the file is
    opened, or the file is opened and then holds [text], the lines ending
    as [ending] says (an exception when the write breaks off or the last
    message cannot be printed). *)
Inductive written : Type :=
| Unwritten (e : exn)
| Written (text : string) (ending : result unit).

(* ------------------------------------------------------------------ *)
(** ** Loops *)

(** [for x in xs: body], the body updating the loop-carried state. *)
Fixpoint for_each {A S : Type} (xs : list A) (body : A -> S -> result S) (s : S)
  : result S :=
  match xs with
  | [] => Ok s
  | x :: rest => s' <- body x s ;; for_each rest body s'
  end.

(** [enumerate(xs, start)]. *)
Fixpoint enumerate {A : Type} (start : Z) (xs : list A) : list (Z * A) :=
  match xs with
  | [] => []
  | x :: rest => (start, x) :: enumerate (start + 1) rest
  end.

Fixpoint endswith_list (s suffix : list ascii) : bool :=
  if list_eq_dec ascii_dec s suffix then true
  else match s with
       | [] => false
       | _ :: rest => endswith_list rest suffix
       end.

Definition endswith (s suffix : string) : bool :=
  endswith_list (list_ascii_of_string s) (list_ascii_of_string suffix).

(* ------------------------------------------------------------------ *)
(** ** Sample documents *)

Module Sample.

(** Stand-ins for the two library services the embedding leaves open;
    the samples below never send a float or a container through [str]. *)
Definition repr (v : value) : string := "<object>".
(** The stand-in writer puts the number of rows into the file. *)
Definition to_csv (rows : list Ball.t) : written :=
  Written (NilZero.string_of_uint (Nat.to_uint (List.length rows))) (Ok tt).

Definition info : value :=
  VDict [("teams", VList [VStr "India"; VStr "England"]);
         ("dates", VList [VStr "not a date"; VStr "2025-06-20"]);
         ("match_type", VStr "Test");
         ("event", VDict [("name", VStr "Series"); ("match_number", VInt 3)])].

Definition odi_info : value :=
  VDict [("teams", VList [VStr "India"; VStr "England"]);
         ("dates", VList [VStr "2025-06-20"]);
         ("match_type", VStr "ODI")].

Definition three_teams_info : value :=
  VDict [("teams", VList [VStr "England"; VStr "Reserve"; VStr "India"])].

Definition other_info : value :=
  VDict [("teams", VList [VStr "India"; VStr "Australia"]);
         ("dates", VList [VStr "2025-06-20"])].

(** A delivery with runs only. *)
Definition plain : value :=
  VDict [("ball", VStr "0.1"); ("batter", VStr "X"); ("bowler", VStr "Y");
         ("runs", VDict [("batter", VInt 4); ("total", VInt 4)])].

Definition caught : value :=
  VDict [("kind", VStr "caught"); ("player_out", VStr "X");
         ("fielders", VList [VDict [("name", VStr "A")]])].

Definition run_out : value :=
  VDict [("kind", VStr "run out"); ("player_out", VStr "Z");
         ("fielders", VList [VDict [("name", VStr "B")]])].

Definition bowled : value :=
  VDict [("kind", VStr "bowled"); ("player_out", VStr "X")].

Definition two_wickets : value :=
  VDict [("ball", VStr "0.2"); ("wickets", VList [caught; run_out])].

Definition bowled_ball : value :=
  VDict [("ball", VStr "0.3"); ("extras", VDict [("wides", VInt 1)]);
         ("wickets", VList [bowled])].

Definition doc : value :=
  VDict [("info", info);
         ("innings",
          VList [VDict [("team", VStr "England");
                        ("overs",
                         VList [VDict [("over", VInt 0);
                                       ("deliveries", VList [plain; two_wickets])];
                                VDict [("over", VInt 1);
                                       ("deliveries", VList [bowled_ball])]])];
                 VDict [("team", VStr "India");
                        ("overs",
                         VList [VDict [("over", VInt 0);
                                       ("deliveries", VList [plain])]])]])].

Definition other_doc : value := VDict [("info", other_info); ("innings", VList [])].

Definition fields : match_fields :=
  {| m_match_id := VInt 3; m_venue := VNone; m_city := VNone;
     m_teams := VList [VStr "India"; VStr "England"];
     m_dates := VList [VStr "2025-06-20"]; m_season := VNone |}.

Definition archive : list entry :=
  [mkentry "README.txt" None; mkentry "1.json" None; mkentry "2.json" (Some other_doc)].

(** A document whose info gives a match_id besides the event. *)
Definition id_doc : value :=
  VDict [("info", VDict [("match_id", VInt 77);
                         ("event", VDict [("match_number", VInt 3)])]);
         ("innings",
          VList [VDict [("team", VStr "India");
                        ("overs", VList [VDict [("over", VInt 0);
                                                ("deliveries", VList [plain])]])]])].

(** A delivery whose runs are null, and a document that holds it. *)
Definition bad_delivery : value := VDict [("ball", VStr "0.2"); ("runs", VNone)].

Definition broken_over : value :=
  VDict [("over", VInt 0); ("deliveries", VList [plain; bad_delivery])].

Definition broken_innings : value :=
  VDict [("team", VStr "England"); ("overs", VList [broken_over])].

Definition broken_doc : value :=
  VDict [("info", info); ("innings", VList [broken_innings])].

(** Match fields with a team that is not a string. *)
Definition odd_fields : match_fields :=
  {| m_match_id := VNone; m_venue := VNone; m_city := VNone;
     m_teams := VList [VStr "India"; VInt 7];
     m_dates := VList [VInt 20250620]; m_season := VNone |}.

(** A document that passes the filters and has no innings. *)
Definition empty_doc : value := VDict [("info", info)].

Definition doc_entry : entry := mkentry "1.json" (Some doc).
Definition other_entry : entry := mkentry "2.json" (Some other_doc).
Definition empty_entry : entry := mkentry "3.json" (Some empty_doc).
Definition list_entry : entry := mkentry "4.json" (Some (VList [])).
Definition broken_entry : entry := mkentry "5.json" (Some broken_doc).

Definition doc_member : member := mkmember "1.json" (Ok (Some doc)).
Definition junk_member : member := mkmember "1.json" (Ok None).
Definition other_member : member := mkmember "2.json" (Ok (Some other_doc)).
Definition locked_member : member := mkmember "9.json" (Raise (LibraryError "RuntimeError")).

End Sample.

(* ------------------------------------------------------------------ *)
(** ** The script *)

Definition OUT_MSG : string :=
  "No India vs England Test matches found in the specified window. Try widening START/END or verify series dates.".

Section Script.

(** [datetime.fromisoformat(s).date()], [None] standing for the
    exception it raises on a string it does not accept.  The accepted
    syntax is the library's and differs between its versions, so the
    parser is a parameter. *)
Variable fromisoformat_date : string -> option date.

(** [str(v)] for a float, a list or a dict: the library's [repr]. *)
Variable py_repr : value -> string.

(** Lines 140-149 on the collected rows: the data frame, its two column
    coercions, the write of [OUT_CSV] and the closing message. *)
Variable dataframe_csv : list Ball.t -> written.

Definition py_str (v : value) : string :=
  match v with
  | VStr s => s
  | VNone => "None"
  | VBool true => "True"
  | VBool false => "False"
  | VInt n => NilZero.string_of_int (Z.to_int n)
  | _ => py_repr v
  end.

(** *** within_series_window (lines 21-31) *)

(** The [for d in ds] loop: [return True] at the first date in the
    window, [continue] on a date that does not parse, [return False]
    after the last one. *)
Fixpoint window_loop (ds : list value) : bool :=
  match ds with
  | [] => false
  | d :: rest =>
      match fromisoformat_date (py_str d) with
      | Some dt => if date_le START dt && date_le dt END then true
                   else window_loop rest
      | None => window_loop rest
      end
  end.

Definition within_series_window (info : value) : result bool :=
  dates <- py_get info "dates" VNone ;;
  ds <- py_iter (py_or dates (VList [])) ;;
  Ok (window_loop ds).

(** *** is_ind_eng_test (lines 33-37) *)

(** The condition of the [if] on line 34.  The right operand of [and] is
    evaluated only when the left one is true. *)
Definition category_rejects (info : value) : result bool :=
  mt <- py_get info "match_type" VNone ;;
  mtn <- py_get info "match_type_number" VNone ;;
  if truthy (py_or mt mtn) then
    low <- py_lower (py_or mt (VStr "")) ;;
    Ok (negb (String.eqb low "test"))
  else Ok false.

(** Lines 36-37. *)
Definition team_check (info : value) : result bool :=
  t <- py_get info "teams" VNone ;;
  xs <- py_iter (py_or t (VList [])) ;;
  teams <- py_set xs ;;
  Ok (issubset ["India"; "England"] teams).

Definition is_ind_eng_test (info : value) : result bool :=
  c <- category_rejects info ;;
  if c then Ok false else team_check info.

(** *** flatten_match (lines 44-113) *)

(** The list comprehension of lines 110-111. *)
Fixpoint fielder_names (wicket_list : list value) : result (list value) :=
  match wicket_list with
  | [] => Ok []
  | w :: rest =>
      c <- py_get w "fielders" VNone ;;
      if truthy c then
        fs <- py_get w "fielders" (VList [VDict []]) ;;
        f <- py_index0 fs ;;
        n <- py_get f "name" (VStr "") ;;
        ns <- fielder_names rest ;;
        Ok (n :: ns)
      else fielder_names rest
  end.

(** The body of the innermost loop (lines 77-112): the row of delivery
    [d] of the over numbered [over_no] of innings [inn_no] of [team]. *)
Definition delivery_row (m : match_fields) (inn_no : Z) (team over_no d : value)
  : result Ball.t :=
  runs <- py_get d "runs" (VDict []) ;;
  w <- py_get d "wickets" (VList []) ;;
  let wicket_list := py_or w (VList []) in
  e <- py_get d "extras" (VDict []) ;;
  let extras := py_or e (VDict []) in
  ds <- py_iter (py_or (m_dates m) (VList [])) ;;
  let date_list := String.concat "," (map py_str ds) in
  ts <- py_iter (py_or (m_teams m) (VList [])) ;;
  teams <- py_join "," ts ;;
  ball_label <- py_get d "ball" VNone ;;
  batter <- py_get d "batter" VNone ;;
  bowler <- py_get d "bowler" VNone ;;
  non_striker <- py_get d "non_striker" VNone ;;
  runs_batter <- py_get runs "batter" (VInt 0) ;;
  runs_extras <- py_get runs "extras" (VInt 0) ;;
  runs_total <- py_get runs "total" (VInt 0) ;;
  extra_byes <- py_get extras "byes" (VInt 0) ;;
  extra_legbyes <- py_get extras "legbyes" (VInt 0) ;;
  extra_wides <- py_get extras "wides" (VInt 0) ;;
  extra_noballs <- py_get extras "noballs" (VInt 0) ;;
  extra_penalty <- py_get extras "penalty" (VInt 0) ;;
  wicket_kind <-
    (if truthy wicket_list
     then w0 <- py_index0 wicket_list ;; py_get w0 "kind" VNone
     else Ok VNone) ;;
  wicket_player_out <-
    (if truthy wicket_list
     then w0 <- py_index0 wicket_list ;; py_get w0 "player_out" VNone
     else Ok VNone) ;;
  wicket_fielders <-
    (if truthy wicket_list
     then ws <- py_iter wicket_list ;;
          names <- fielder_names ws ;;
          s <- py_join "," names ;;
          Ok (VStr s)
     else Ok VNone) ;;
  Ok {| Ball.match_id := m_match_id m;
        Ball.season := m_season m;
        Ball.date_list := date_list;
        Ball.venue := m_venue m;
        Ball.city := m_city m;
        Ball.teams := teams;
        Ball.innings := inn_no;
        Ball.batting_team := team;
        Ball.over := over_no;
        Ball.ball_label := ball_label;
        Ball.batter := batter;
        Ball.bowler := bowler;
        Ball.non_striker := non_striker;
        Ball.runs_batter := runs_batter;
        Ball.runs_extras := runs_extras;
        Ball.runs_total := runs_total;
        Ball.extra_byes := extra_byes;
        Ball.extra_legbyes := extra_legbyes;
        Ball.extra_wides := extra_wides;
        Ball.extra_noballs := extra_noballs;
        Ball.extra_penalty := extra_penalty;
        Ball.wicket_kind := wicket_kind;
        Ball.wicket_player_out := wicket_player_out;
        Ball.wicket_fielders := wicket_fielders |}.

(** Lines 63-69. *)
Definition match_fields_of (json_obj : value) : result match_fields :=
  info <- py_get json_obj "info" (VDict []) ;;
  mid <- py_get info "match_id" VNone ;;
  match_id <-
    (if truthy mid then Ok mid
     else ev <- py_get info "event" (VDict []) ;;
          py_get ev "match_number" VNone) ;;
  venue <- py_get info "venue" VNone ;;
  city <- py_get info "city" VNone ;;
  teams <- py_get info "teams" VNone ;;
  dates <- py_get info "dates" VNone ;;
  season <- py_get info "season" VNone ;;
  Ok {| m_match_id := match_id; m_venue := venue; m_city := city;
        m_teams := teams; m_dates := dates; m_season := season |}.

(** The three nested loops, each carrying the list [balls]. *)
Definition over_loop (m : match_fields) (inn_no : Z) (team over_block : value)
           (balls : list Ball.t) : result (list Ball.t) :=
  over_no <- py_get over_block "over" VNone ;;
  dl <- py_get over_block "deliveries" (VList []) ;;
  ds <- py_iter dl ;;
  for_each ds
    (fun d balls => row <- delivery_row m inn_no team over_no d ;;
                    Ok (balls ++ [row])%list)
    balls.

Definition innings_loop (m : match_fields) (p : Z * value)
           (balls : list Ball.t) : result (list Ball.t) :=
  let (inn_no, inn) := p in
  team <- py_get inn "team" VNone ;;
  ol <- py_get inn "overs" (VList []) ;;
  overs <- py_iter ol ;;
  for_each overs (over_loop m inn_no team) balls.

Definition flatten_match (json_obj : value) : result (list Ball.t) :=
  m <- match_fields_of json_obj ;;
  il <- py_get json_obj "innings" (VList []) ;;
  inns <- py_iter il ;;
  for_each (enumerate 1 inns) (innings_loop m) [].

(** *** main (lines 115-149) *)

(** The body of the scan over [json_files]; [continue] leaves [rows]
    as it is. *)
Definition scan_entry (e : entry) (rows : list Ball.t) : result (list Ball.t) :=
  match content e with
  | None => Ok rows
  | Some obj =>
      info <- py_get obj "info" (VDict []) ;;
      a <- is_ind_eng_test info ;;
      if negb a then Ok rows else
      b <- within_series_window info ;;
      if negb b then Ok rows else
      new <- flatten_match obj ;;
      Ok (rows ++ new)%list
  end.

(** Lines 136-149, after the scan: its exception goes through; without
    rows the run exits; with rows the file and the end of the run are what
    the writer makes of them. *)
Definition finish (scan : result (list Ball.t)) (out_csv : option string)
  : result unit * option string :=
  match scan with
  | Raise e => (Raise e, out_csv)
  | Ok rows =>
      match rows with
      | [] => (Raise (SystemExit OUT_MSG), out_csv)
      | _ =>
          match dataframe_csv rows with
          | Unwritten e => (Raise e, out_csv)
          | Written text ending => (ending, Some text)
          end
      end
  end.

(** [main] on the reads of the scan: for every name of the archive, in
    order, the document read under it (or the exception of the download).
    The second component is the content of [OUT_CSV] on disk, before and
    after the run.  The opening message and the progress bar are left
    out. *)
Definition main (download : result (list entry)) (out_csv : option string)
  : result unit * option string :=
  match download with
  | Raise e => (Raise e, out_csv)
  | Ok zf =>
      let json_files := filter (fun e => endswith (name e) ".json") zf in
      finish (for_each json_files scan_entry []) out_csv
  end.

(** *** main on the stored members (lines 120-134) *)

(** [zf.namelist()]: one name per stored member, in archive order. *)
Definition namelist (zf : list member) : list string := map stored_as zf.

(** [zf.getinfo(name)]: the archive keeps one member per name, a later
    member replacing an earlier one of the same name. *)
Fixpoint getinfo (zf : list member) (n : string) : option member :=
  match zf with
  | [] => None
  | m :: rest =>
      match getinfo rest n with
      | Some later => Some later
      | None => if String.eqb (stored_as m) n then Some m else None
      end
  end.

(** [zf.open(name)] followed by [json.load] under its [try]. *)
Definition zip_open (zf : list member) (n : string) : result (option value) :=
  match getinfo zf n with
  | Some m => opens_to m
  | None => Raise KeyError
  end.

(** The body of the scan for one name: [zf.open] is outside the [try],
    so its exception ends the scan. *)
Definition scan_name (zf : list member) (n : string) (rows : list Ball.t)
  : result (list Ball.t) :=
  c <- zip_open zf n ;;
  scan_entry (mkentry n c) rows.

(** [main] on the stored members of the archive. *)
Definition main_on_zip (download : result (list member)) (out_csv : option string)
  : result unit * option string :=
  match download with
  | Raise e => (Raise e, out_csv)
  | Ok zf =>
      let json_files := filter (fun n => endswith n ".json") (namelist zf) in
      finish (for_each json_files (scan_name zf) []) out_csv
  end.

(** The reads that the scan makes of an archive whose .json members all
    open. *)
Definition reads (zf : list member) : list entry :=
  map (fun m => mkentry (stored_as m)
                        (match zip_open zf (stored_as m) with
                         | Ok c => c
                         | Raise _ => None
                         end))
      zf.

(* ---------------------------------------------------------------- *)
(** ** The vocabulary of the specification *)

(** The value a mapping gives a key, if it has the key. *)
Definition lookup (o : value) (k : string) : option value :=
  match o with
  | VDict kv => assoc k kv
  | _ => None
  end.

Definition field (o : value) (k : string) (dflt : value) : value :=
  match lookup o k with
  | Some v => v
  | None => dflt
  end.

(** The members of a sequence-valued field. *)
Definition items (v : value) : list value :=
  match py_iter v with
  | Ok l => l
  | Raise _ => []
  end.

(** The elements declared under key [k] of [info]: those of the field,
    none when the field is absent, null or empty. *)
Definition declared (info : value) (k : string) : result (list value) :=
  py_iter (py_or (field info k VNone) (VList [])).

(** [a] is on or before [b] in the calendar. *)
Definition on_or_before (a b : date) : Prop :=
  year a < year b
  \/ (year a = year b
      /\ (month a < month b \/ (month a = month b /\ day a <= day b))).

(** [d] reads as a calendar date of the closed window [START, END]. *)
Definition date_in_window (d : value) : Prop :=
  exists dt, fromisoformat_date (py_str d) = Some dt
             /\ on_or_before START dt /\ on_or_before dt END.

(** The document has the field [k], whatever its value. *)
Definition has_field (info : value) (k : string) : Prop :=
  exists v, lookup info k = Some v.

(** The field [k] holds a value Python counts as true: a non-empty
    string, a non-zero number; not null, not "", not 0. *)
Definition holds_true (info : value) (k : string) : Prop :=
  exists v, lookup info k = Some v /\ truthy v = true.

(** The text that line 34 lowers and compares, [match_type or ""]: the
    match_type when it is a text, the empty text when the field is
    missing or holds a false value. *)
Definition category_text (info : value) : string :=
  match lookup info "match_type" with
  | Some (VStr s) => s
  | _ => ""
  end.

Definition is_str (v : value) : bool :=
  match v with VStr _ => true | _ => false end.

Definition is_dict (v : value) : bool :=
  match v with VDict _ => true | _ => false end.

(** [match_type] is a string whenever it holds a true value. *)
Definition category_is_text (info : value) : Prop :=
  forall v, lookup info "match_type" = Some v -> truthy v = true -> is_str v = true.

(** *** Shape of a match document (specification, section 3) *)

Definition absent_or (P : value -> bool) (o : option value) : bool :=
  match o with
  | None => true
  | Some v => P v
  end.

Definition list_of (P : value -> bool) (v : value) : bool :=
  match v with
  | VList l => forallb P l
  | _ => false
  end.

Definition none_or_list_of (P : value -> bool) (v : value) : bool :=
  match v with
  | VNone => true
  | _ => list_of P v
  end.

Definition none_or_dict (v : value) : bool :=
  match v with
  | VNone | VDict _ => true
  | _ => false
  end.

Definition wf_fielder (f : value) : bool :=
  match f with
  | VDict kv => absent_or is_str (assoc "name" kv)
  | _ => false
  end.

Definition wf_wicket (w : value) : bool :=
  match w with
  | VDict kv => absent_or (none_or_list_of wf_fielder) (assoc "fielders" kv)
  | _ => false
  end.

Definition wf_delivery (d : value) : bool :=
  match d with
  | VDict kv =>
      absent_or is_dict (assoc "runs" kv)
      && absent_or none_or_dict (assoc "extras" kv)
      && absent_or (none_or_list_of wf_wicket) (assoc "wickets" kv)
  | _ => false
  end.

Definition wf_over (o : value) : bool :=
  match o with
  | VDict kv => absent_or (list_of wf_delivery) (assoc "deliveries" kv)
  | _ => false
  end.

Definition wf_innings (i : value) : bool :=
  match i with
  | VDict kv => absent_or (list_of wf_over) (assoc "overs" kv)
  | _ => false
  end.

Definition wf_info (info : value) : bool :=
  match info with
  | VDict kv =>
      absent_or is_dict (assoc "event" kv)
      && absent_or (none_or_list_of (fun _ => true)) (assoc "dates" kv)
      && absent_or (none_or_list_of is_str) (assoc "teams" kv)
  | _ => false
  end.

Definition wf_document (obj : value) : bool :=
  match obj with
  | VDict kv =>
      absent_or wf_info (assoc "info" kv)
      && absent_or (list_of wf_innings) (assoc "innings" kv)
  | _ => false
  end.

Definition wf_match (m : match_fields) : bool :=
  none_or_list_of (fun _ => true) (m_dates m)
  && none_or_list_of is_str (m_teams m).

(** *** Deliveries in encounter order *)

Definition innings_of (obj : value) : list value :=
  items (field obj "innings" (VList [])).

Definition overs_of (inn : value) : list value :=
  items (field inn "overs" (VList [])).

Definition deliveries_of (over_block : value) : list value :=
  items (field over_block "deliveries" (VList [])).

(** Sum of the delivery counts over all overs of all innings. *)
Definition delivery_count (obj : value) : nat :=
  list_sum
    (map (fun inn => list_sum (map (fun o => List.length (deliveries_of o)) (overs_of inn)))
         (innings_of obj)).

(** A delivery with the innings (numbered from 1) and the over it is in. *)
Record position : Type := mkpos {
  pos_no : Z;
  pos_innings : value;
  pos_over : value;
  pos_delivery : value
}.

(** Innings in document order, then overs, then deliveries. *)
Definition encounter_order (obj : value) : list position :=
  flat_map
    (fun p : Z * value =>
       flat_map
         (fun o => map (mkpos (fst p) (snd p) o) (deliveries_of o))
         (overs_of (snd p)))
    (enumerate 1 (innings_of obj)).

(** The row of the delivery at a position. *)
Definition row_at (m : match_fields) (p : position) : result Ball.t :=
  delivery_row m (pos_no p)
               (field (pos_innings p) "team" VNone)
               (field (pos_over p) "over" VNone)
               (pos_delivery p).

(** *** Wickets of a delivery *)

Definition wicket_entries (d : value) : list value :=
  items (py_or (field d "wickets" (VList [])) (VList [])).

Definition fielders_of (w : value) : list value :=
  items (py_or (field w "fielders" VNone) (VList [])).

Definition has_fielder (w : value) : bool :=
  match fielders_of w with
  | [] => false
  | _ :: _ => true
  end.

(** Name of the first fielder of a wicket entry (empty if that fielder
    carries no name). *)
Definition first_fielder_name (w : value) : string :=
  match fielders_of w with
  | f :: _ => match field f "name" (VStr "") with
              | VStr s => s
              | _ => ""
              end
  | [] => ""
  end.

(** The wicket entries of a delivery whose row was built: either there
    is none, or they form a list headed by a mapping. *)
Definition wickets_view (d : value) (kind out fielders : value) : Prop :=
  let wl := py_or (field d "wickets" (VList [])) (VList []) in
  (truthy wl = false /\ wicket_entries d = []
   /\ kind = VNone /\ out = VNone /\ fielders = VNone)
  \/ (exists w0 rest names s,
         wl = VList (w0 :: rest) /\ wicket_entries d = w0 :: rest
         /\ kind = field w0 "kind" VNone
         /\ out = field w0 "player_out" VNone
         /\ fielder_names (w0 :: rest) = Ok names
         /\ py_join "," names = Ok s
         /\ fielders = VStr s).

(** The runs breakdown and the extras breakdown of a delivery. *)
Definition runs_of (d : value) : value := field d "runs" (VDict []).
Definition extras_of (d : value) : value := py_or (field d "extras" (VDict [])) (VDict []).

Definition omits (breakdown : value) (k : string) : Prop := lookup breakdown k = None.

(** *** The run of the pipeline *)

(** [obj] passes the category, team and date-window filters. *)
Definition passes_filters (obj : value) : Prop :=
  exists info, py_get obj "info" (VDict []) = Ok info
               /\ is_ind_eng_test info = Ok true
               /\ within_series_window info = Ok true.

(** The filters come to a verdict on [obj] (none of them raises). *)
Definition filters_decide (obj : value) : Prop :=
  exists info a, py_get obj "info" (VDict []) = Ok info
                 /\ is_ind_eng_test info = Ok a
                 /\ (a = true -> exists b, within_series_window info = Ok b).

(** The documents that [main] scans. *)
Definition scanned (zf : list entry) (obj : value) : Prop :=
  exists e, In e zf /\ endswith (name e) ".json" = true /\ content e = Some obj.

(** *** Further vocabulary *)

(** The objects a [for] loop can draw from. *)
Definition iterable (v : value) : bool :=
  match v with
  | VList _ | VStr _ | VDict _ => true
  | _ => false
  end.

(** An archive member that the scan passes over: its name does not end
    in ".json", it does not parse, or one of the filters turns its
    document down. *)
Definition ignorable (e : entry) : Prop :=
  endswith (name e) ".json" = false
  \/ content e = None
  \/ exists obj info,
       content e = Some obj
       /\ py_get obj "info" (VDict []) = Ok info
       /\ (is_ind_eng_test info = Ok false
           \/ (is_ind_eng_test info = Ok true
               /\ within_series_window info = Ok false)).

(** An archive member whose document passes the filters and flattens to
    [rows]. *)
Definition contributes (e : entry) (rows : list Ball.t) : Prop :=
  endswith (name e) ".json" = true
  /\ exists obj, content e = Some obj
                 /\ passes_filters obj
                 /\ flatten_match obj = Ok rows.

(** What an archive member adds to the rows of the run. *)
Definition adds (e : entry) (rows : list Ball.t) : Prop :=
  contributes e rows \/ (ignorable e /\ rows = []).

(** What the name [n] of the archive [zf] adds to the rows of the run:
    nothing when the name is not scanned; otherwise the name opens, and
    what is read under it adds the rows. *)
Definition read_adds (zf : list member) (n : string) (rows : list Ball.t) : Prop :=
  if endswith n ".json"
  then exists c, zip_open zf n = Ok c /\ adds (mkentry n c) rows
  else rows = [].

(** The rejection condition of the category check in the words "the
    document declares a match_type or a match_type_number, and the
    declared category, lowered, is not test", a field being declared when
    the document has it. *)
Definition stated_category_rejection (info : value) : Prop :=
  (has_field info "match_type" \/ has_field info "match_type_number")
  /\ lower (category_text info) <> "test".

(* ---------------------------------------------------------------- *)
(** ** Basic facts *)

Set Default Proof Using "Type".

Lemma bind_ok {A B} (c : result A) (k : A -> result B) (b : B) :
  (x <- c ;; k x) = Ok b -> exists a, c = Ok a /\ k a = Ok b.
Proof.
  destruct c as [a|e]; simpl; intros H; [exists a; auto | discriminate].
Qed.

Lemma py_get_dict (kv : list (string * value)) (k : string) (dflt : value) :
  py_get (VDict kv) k dflt = Ok (field (VDict kv) k dflt).
Proof. reflexivity. Qed.

Lemma py_get_ok (o : value) (k : string) (dflt v : value) :
  py_get o k dflt = Ok v -> is_dict o = true /\ v = field o k dflt.
Proof.
  destruct o; simpl; try discriminate.
  intros H; injection H as <-. split; reflexivity.
Qed.

Lemma py_or_true (a b : value) : truthy a = true -> py_or a b = a.
Proof. unfold py_or. intros ->. reflexivity. Qed.

Lemma py_or_false (a b : value) : truthy a = false -> py_or a b = b.
Proof. unfold py_or. intros ->. reflexivity. Qed.

Lemma is_dict_inv (o : value) : is_dict o = true -> exists kv, o = VDict kv.
Proof. destruct o; try discriminate. eauto. Qed.

Lemma date_le_spec (a b : date) : date_le a b = true <-> on_or_before a b.
Proof.
  unfold date_le, on_or_before.
  rewrite !orb_true_iff, !andb_true_iff, orb_true_iff, andb_true_iff.
  rewrite !Z.ltb_lt, !Z.eqb_eq, Z.leb_le. tauto.
Qed.

Lemma window_loop_true (ds : list value) :
  window_loop ds = true <-> exists d, In d ds /\ date_in_window d.
Proof.
  induction ds as [|d rest IH]; simpl.
  - split; [discriminate | intros (d & [] & _)].
  - unfold date_in_window in *.
    destruct (fromisoformat_date (py_str d)) as [dt|] eqn:P.
    + destruct (date_le START dt && date_le dt END)%bool eqn:W.
      * split; auto. intros _. exists d. split; auto.
        apply andb_true_iff in W. destruct W as [W1 W2].
        exists dt. rewrite <- !date_le_spec. auto.
      * rewrite IH. split.
        -- intros (x & Hx & Hw). exists x. auto.
        -- intros (x & [<-|Hx] & dt' & Hp & H1 & H2).
           ++ rewrite P in Hp. injection Hp as <-.
              apply date_le_spec in H1, H2. rewrite H1, H2 in W. discriminate.
           ++ exists x. split; auto. exists dt'. auto.
    + rewrite IH. split.
      * intros (x & Hx & Hw). exists x. auto.
      * intros (x & [<-|Hx] & dt' & Hp & H1 & H2).
        -- rewrite P in Hp. discriminate.
        -- exists x. split; auto. exists dt'. auto.
Qed.

Lemma py_in_spec (s : string) (set : list value) :
  py_in s set = true <-> In (VStr s) set.
Proof.
  unfold py_in. rewrite existsb_exists. split.
  - intros (v & Hin & Heq). destruct v; simpl in Heq; try discriminate.
    apply String.eqb_eq in Heq. subst. exact Hin.
  - intros Hin. exists (VStr s). split; auto. simpl. apply String.eqb_refl.
Qed.

(* ---------------------------------------------------------------- *)
(** ** The match filter *)

(** C4. On an info mapping whose dates can be iterated, the date-window
    check returns (it never raises on a date that does not parse) and
    accepts exactly when one of the declared dates parses as a date of
    the closed window [START, END]; with no date, or with no date that
    parses, it rejects. *)
Theorem within_series_window_any_date (info : value) (ds : list value) :
  is_dict info = true ->
  declared info "dates" = Ok ds ->
  exists b, within_series_window info = Ok b
    /\ (b = true <-> exists d, In d ds /\ date_in_window d)
    /\ (ds = [] -> b = false)
    /\ ((forall d, In d ds -> fromisoformat_date (py_str d) = None) -> b = false).
Proof.
  intros Hd Hds. apply is_dict_inv in Hd. destruct Hd as [kv ->].
  unfold within_series_window. rewrite py_get_dict. simpl bind.
  unfold declared in Hds. rewrite Hds. simpl bind.
  exists (window_loop ds). split; [reflexivity|].
  split; [apply window_loop_true|]. split.
  - intros ->. reflexivity.
  - intros Hnone. destruct (window_loop ds) eqn:W; auto.
    apply window_loop_true in W. destruct W as (d & Hin & dt & Hp & _).
    rewrite (Hnone d Hin) in Hp. discriminate.
Qed.

(** C2, as stated, fails.  A document that has the match_type field with
    the empty text, or the match_type_number field with 0, meets the
    stated condition (it has a category field, and its category is not
    "test"), yet line 34 does not reject it: [or] takes an empty or zero
    value for a missing one. *)
Lemma category_claim_fails_on_empty_values :
  (stated_category_rejection (VDict [("match_type", VStr "")])
   /\ category_rejects (VDict [("match_type", VStr "")]) = Ok false
   /\ ~ (category_rejects (VDict [("match_type", VStr "")]) = Ok true
         <-> stated_category_rejection (VDict [("match_type", VStr "")])))
  /\ (stated_category_rejection (VDict [("match_type_number", VInt 0)])
      /\ category_rejects (VDict [("match_type_number", VInt 0)]) = Ok false
      /\ ~ (category_rejects (VDict [("match_type_number", VInt 0)]) = Ok true
            <-> stated_category_rejection (VDict [("match_type_number", VInt 0)]))).
Proof.
  assert (S1 : stated_category_rejection (VDict [("match_type", VStr "")])).
  { split; [left; exists (VStr ""); reflexivity | discriminate]. }
  assert (S2 : stated_category_rejection (VDict [("match_type_number", VInt 0)])).
  { split; [right; exists (VInt 0); reflexivity | discriminate]. }
  split; (split; [assumption|]; split; [reflexivity|]).
  - intros [_ H]. specialize (H S1). discriminate H.
  - intros [_ H]. specialize (H S2). discriminate H.
Qed.

(** C2, amended.  On an info mapping whose match_type, when it holds a
    true value, is text, the category check rejects exactly when
    match_type or match_type_number holds a true value (a non-empty
    string, a non-zero number) and the text of match_type, lowered (empty
    when match_type is missing or holds a false value), differs from
    "test"; with neither field the check passes and the verdict is left
    to the team check. *)
Theorem category_check_rejects (info : value) :
  is_dict info = true ->
  category_is_text info ->
  exists b, category_rejects info = Ok b
    /\ (b = true <->
        (holds_true info "match_type" \/ holds_true info "match_type_number")
        /\ lower (category_text info) <> "test")
    /\ (lookup info "match_type" = None ->
        lookup info "match_type_number" = None ->
        b = false /\ is_ind_eng_test info = team_check info).
Proof.
  intros Hd Htxt. apply is_dict_inv in Hd. destruct Hd as [kv ->].
  unfold category_is_text, holds_true, category_text, is_ind_eng_test,
    category_rejects in *.
  rewrite !py_get_dict. unfold field. simpl lookup in *. simpl bind.
  destruct (assoc "match_type" kv) as [mt|] eqn:Emt.
  - destruct (truthy mt) eqn:Tmt.
    + pose proof (Htxt mt eq_refl Tmt) as Hs.
      destruct mt; try discriminate Hs.
      rewrite !(py_or_true _ _ Tmt), Tmt. simpl bind.
      eexists. split; [reflexivity|]. split; [|discriminate].
      rewrite negb_true_iff. split.
      * intros H. split.
        -- left. eexists. split; [reflexivity | exact Tmt].
        -- intros E. rewrite E in H. discriminate.
      * intros [_ H]. destruct (String.eqb_spec (lower s) "test"); congruence.
    + rewrite !(py_or_false _ _ Tmt).
      assert (Hcat : match mt with VStr s => s | _ => "" end = "").
      { destruct mt; auto. simpl in Tmt.
        apply negb_false_iff, String.eqb_eq in Tmt. exact Tmt. }
      rewrite Hcat.
      destruct (assoc "match_type_number" kv) as [mtn|] eqn:Emtn;
        [destruct (truthy mtn) eqn:Tn|]; simpl.
      * eexists. split; [reflexivity|]. split; [|discriminate].
        split; [|reflexivity]. intros _. split; [|discriminate].
        right. eexists. split; [reflexivity | exact Tn].
      * eexists. split; [reflexivity|]. split; [|discriminate].
        split; [discriminate|].
        intros [[(v & E & T)|(v & E & T)] _]; injection E as <-; congruence.
      * eexists. split; [reflexivity|]. split; [|discriminate].
        split; [discriminate|].
        intros [[(v & E & T)|(v & E & T)] _]; [injection E as <-|]; congruence.
  - destruct (assoc "match_type_number" kv) as [mtn|] eqn:Emtn;
      [destruct (truthy mtn) eqn:Tn|].
    + rewrite (py_or_false VNone mtn eq_refl), Tn. simpl.
      eexists. split; [reflexivity|]. split; [|discriminate].
      split; [|reflexivity]. intros _. split; [|discriminate].
      right. eexists. split; [reflexivity | exact Tn].
    + rewrite (py_or_false VNone mtn eq_refl), Tn. simpl.
      eexists. split; [reflexivity|]. split; [|discriminate].
      split; [discriminate|].
      intros [[(v & E & T)|(v & E & T)] _]; [|injection E as <-]; congruence.
    + simpl. eexists. split; [reflexivity|]. split.
      * split; [discriminate|].
        intros [[(v & E & T)|(v & E & T)] _]; discriminate.
      * intros _ _. split; reflexivity.
Qed.

(** C5. On an info mapping whose teams can be collected into a set, the
    team check passes exactly when both "India" and "England" are among
    the declared teams, whatever their order; a document that declares
    further teams besides passes as well. *)
Theorem team_check_superset (info : value) (ts : list value) :
  is_dict info = true ->
  declared info "teams" = Ok ts ->
  forallb hashable ts = true ->
  exists b, team_check info = Ok b
    /\ (b = true <-> In (VStr "India") ts /\ In (VStr "England") ts)
    /\ (b = true ->
        forall info' ts',
          is_dict info' = true ->
          declared info' "teams" = Ok ts' ->
          forallb hashable ts' = true ->
          incl ts ts' ->
          team_check info' = Ok true).
Proof.
  assert (run : forall i l, is_dict i = true -> declared i "teams" = Ok l ->
                forallb hashable l = true ->
                team_check i = Ok (issubset ["India"; "England"] l)).
  { intros i l Hd Hl Hh. apply is_dict_inv in Hd. destruct Hd as [kv ->].
    unfold team_check. rewrite py_get_dict. simpl bind.
    unfold declared in Hl. rewrite Hl. simpl bind.
    unfold py_set. rewrite Hh. reflexivity. }
  assert (sub : forall l, issubset ["India"; "England"] l = true <->
                In (VStr "India") l /\ In (VStr "England") l).
  { intros l. unfold issubset. simpl. rewrite andb_true_r, andb_true_iff.
    rewrite !py_in_spec. reflexivity. }
  intros Hd Hts Hh. eexists. split; [apply (run _ _ Hd Hts Hh)|].
  split; [apply sub|].
  intros Hb info' ts' Hd' Hts' Hh' Hincl.
  rewrite (run _ _ Hd' Hts' Hh'). f_equal.
  apply sub. apply sub in Hb. destruct Hb. split; apply Hincl; assumption.
Qed.

(* ---------------------------------------------------------------- *)
(** ** Loops that append to their state *)

Section Appending.
Context {A B : Type}.
Variable body : A -> list B -> result (list B).

(** What the body does to [balls] is to append what it produces from
    the empty list. *)
Hypothesis body_appends :
  forall x acc, body x acc = (rs <- body x [] ;; Ok (acc ++ rs)%list).

Lemma for_each_appends (xs : list A) (acc : list B) :
  for_each xs body acc = (rs <- for_each xs body [] ;; Ok (acc ++ rs)%list).
Proof using body_appends.
  revert acc. induction xs as [|x rest IH]; intros acc; simpl.
  - rewrite app_nil_r. reflexivity.
  - rewrite (body_appends x acc).
    destruct (body x []) as [rs|e]; simpl; [|reflexivity].
    rewrite (IH (acc ++ rs)%list), (IH rs).
    destruct (for_each rest body []) as [rs'|e]; simpl; [|reflexivity].
    rewrite app_assoc. reflexivity.
Qed.

Lemma for_each_concat (xs : list A) (out : list B) :
  for_each xs body [] = Ok out <->
  exists rss, out = List.concat rss /\ Forall2 (fun x rs => body x [] = Ok rs) xs rss.
Proof using body_appends.
  revert out. induction xs as [|x rest IH]; intros out; simpl.
  - split.
    + intros H. injection H as <-. exists []. split; [reflexivity | constructor].
    + intros (rss & -> & F). inversion F. reflexivity.
  - destruct (body x []) as [rs|e] eqn:Bx; simpl.
    + rewrite for_each_appends.
      destruct (for_each rest body []) as [rs'|e] eqn:R; simpl.
      * destruct (proj1 (IH rs') eq_refl) as (rss & -> & F).
        split.
        -- intros H. injection H as <-. exists (rs :: rss).
           split; [reflexivity | constructor; assumption].
        -- intros (rss' & -> & F'). inversion F' as [|? rs0 ? rss0 H0 F0]; subst.
           assert (E : Ok (List.concat rss) = Ok (List.concat rss0))
             by (apply IH; exists rss0; auto).
           injection E as E. simpl. congruence.
      * split; [discriminate|].
        intros (rss' & -> & F'). inversion F' as [|? rs0 ? rss0 H0 F0]; subst.
        assert (E : @Raise (list B) e = Ok (List.concat rss0))
          by (apply IH; exists rss0; auto).
        discriminate.
    + split; [discriminate|].
      intros (rss' & -> & F'). inversion F'. congruence.
Qed.
End Appending.

Lemma Forall2_flat_map {A B C : Type} (R : B -> C -> Prop) (f : A -> list B)
      (xs : list A) (rss : list (list C)) :
  Forall2 (fun x rs => Forall2 R (f x) rs) xs rss ->
  Forall2 R (flat_map f xs) (List.concat rss).
Proof.
  induction 1; simpl; [constructor | apply Forall2_app; assumption].
Qed.

Lemma Forall2_weaken {A B : Type} (R R' : A -> B -> Prop) (xs : list A) (ys : list B) :
  (forall x y, In x xs -> R x y -> R' x y) -> Forall2 R xs ys -> Forall2 R' xs ys.
Proof.
  intros HR F. induction F; constructor.
  - apply HR; [left; reflexivity | assumption].
  - apply IHF. intros a b Hin. apply HR. right. exact Hin.
Qed.

Lemma Forall2_total {A B : Type} (R : A -> B -> Prop) (xs : list A) :
  (forall x, In x xs -> exists y, R x y) -> exists ys, Forall2 R xs ys.
Proof.
  induction xs as [|x rest IH]; intros H.
  - exists []. constructor.
  - destruct (H x (or_introl eq_refl)) as [y Hy].
    destruct IH as [ys F]; [intros a Ha; apply H; right; exact Ha|].
    exists (y :: ys). constructor; assumption.
Qed.

Lemma Forall2_map_l {A B C : Type} (R : B -> C -> Prop) (g : A -> B)
      (xs : list A) (ys : list C) :
  Forall2 (fun x y => R (g x) y) xs ys -> Forall2 R (map g xs) ys.
Proof. induction 1; simpl; constructor; assumption. Qed.

Lemma enumerate_snd {A : Type} (start : Z) (xs : list A) :
  map snd (enumerate start xs) = xs.
Proof.
  revert start. induction xs as [|x rest IH]; intros start; simpl;
    [reflexivity | rewrite IH; reflexivity].
Qed.

Lemma length_flat_map_sum {A B : Type} (f : A -> list B) (xs : list A) :
  List.length (flat_map f xs) = list_sum (map (fun x => List.length (f x)) xs).
Proof.
  induction xs as [|x rest IH]; simpl; [reflexivity|].
  rewrite length_app, IH. reflexivity.
Qed.

Lemma encounter_order_length (obj : value) :
  List.length (encounter_order obj) = delivery_count obj.
Proof.
  unfold encounter_order, delivery_count.
  rewrite length_flat_map_sum.
  rewrite <- (enumerate_snd 1 (innings_of obj)) at 2.
  rewrite map_map. f_equal. apply map_ext. intros [n inn]. simpl.
  rewrite length_flat_map_sum. f_equal. apply map_ext. intros o.
  apply length_map.
Qed.

(* ---------------------------------------------------------------- *)
(** ** The three loops of flatten_match *)

Lemma delivery_step_appends (m : match_fields) (inn_no : Z) (team over_no : value) :
  forall d acc,
    (row <- delivery_row m inn_no team over_no d ;; Ok (acc ++ [row])%list)
    = (rs <- (row <- delivery_row m inn_no team over_no d ;; Ok ([] ++ [row])%list) ;;
       Ok (acc ++ rs)%list).
Proof.
  intros d acc. destruct (delivery_row m inn_no team over_no d); reflexivity.
Qed.

Lemma over_loop_appends (m : match_fields) (inn_no : Z) (team : value) :
  forall o acc,
    over_loop m inn_no team o acc
    = (rs <- over_loop m inn_no team o [] ;; Ok (acc ++ rs)%list).
Proof.
  intros o acc. unfold over_loop.
  destruct (py_get o "over" VNone) as [over_no|]; simpl; [|reflexivity].
  destruct (py_get o "deliveries" (VList [])) as [dl|]; simpl; [|reflexivity].
  destruct (py_iter dl) as [ds|]; simpl; [|reflexivity].
  apply (for_each_appends _ (delivery_step_appends m inn_no team over_no)).
Qed.

Lemma innings_loop_appends (m : match_fields) :
  forall p acc,
    innings_loop m p acc = (rs <- innings_loop m p [] ;; Ok (acc ++ rs)%list).
Proof.
  intros [inn_no inn] acc. unfold innings_loop.
  destruct (py_get inn "team" VNone) as [team|]; simpl; [|reflexivity].
  destruct (py_get inn "overs" (VList [])) as [ol|]; simpl; [|reflexivity].
  destruct (py_iter ol) as [overs|]; simpl; [|reflexivity].
  apply (for_each_appends _ (over_loop_appends m inn_no team)).
Qed.

(** The rows of one over are the rows of its deliveries, in order. *)
Lemma over_loop_rows (m : match_fields) (inn_no : Z) (inn o : value) (rows : list Ball.t) :
  over_loop m inn_no (field inn "team" VNone) o [] = Ok rows <->
  is_dict o = true
  /\ is_ok (py_iter (field o "deliveries" (VList []))) = true
  /\ Forall2 (fun p r => row_at m p = Ok r)
             (map (mkpos inn_no inn o) (deliveries_of o)) rows.
Proof.
  unfold over_loop, deliveries_of, items.
  destruct o; simpl; try (split; [discriminate | intros [? _]; discriminate]).
  change (match assoc "deliveries" kv with Some v => v | None => VList [] end)
    with (field (VDict kv) "deliveries" (VList [])).
  destruct (py_iter (field (VDict kv) "deliveries" (VList []))) as [ds|e]; simpl.
  - rewrite (for_each_concat _ (delivery_step_appends m inn_no _ _)).
    split.
    + intros (rss & -> & F). split; [reflexivity|]. split; [reflexivity|].
      apply Forall2_map_l. unfold row_at. simpl.
      clear -F. induction F as [|d rs ds rss H F IH]; simpl; [constructor|].
      apply bind_ok in H. destruct H as (r & Hr & E). injection E as <-.
      simpl. constructor; assumption.
    + intros (_ & _ & F).
      assert (G : Forall2 (fun d r => delivery_row m inn_no (field inn "team" VNone)
                                        (field (VDict kv) "over" VNone) d = Ok r) ds rows).
      { clear -F. revert rows F. induction ds as [|d ds IH]; intros rows F;
          simpl in F; inversion F; subst; constructor; auto. }
      exists (map (fun r => [r]) rows). split.
      * clear. induction rows; simpl; congruence.
      * clear -G. induction G as [|d r ds rows H G IH]; simpl; constructor; auto.
        unfold field, lookup in *. rewrite H. reflexivity.
  - split; [discriminate | intros (_ & H & _); discriminate].
Qed.

(** The rows of one innings are those of its overs, in order. *)
Lemma innings_loop_rows (m : match_fields) (inn_no : Z) (inn : value) (rows : list Ball.t) :
  innings_loop m (inn_no, inn) [] = Ok rows <->
  is_dict inn = true
  /\ is_ok (py_iter (field inn "overs" (VList []))) = true
  /\ exists rss, rows = List.concat rss
       /\ Forall2 (fun o rs => over_loop m inn_no (field inn "team" VNone) o [] = Ok rs)
                  (overs_of inn) rss.
Proof.
  unfold innings_loop, overs_of, items.
  destruct inn; simpl; try (split; [discriminate | intros [? _]; discriminate]).
  change (match assoc "overs" kv with Some v => v | None => VList [] end)
    with (field (VDict kv) "overs" (VList [])).
  change (match assoc "team" kv with Some v => v | None => VNone end)
    with (field (VDict kv) "team" VNone).
  destruct (py_iter (field (VDict kv) "overs" (VList []))) as [overs|e]; simpl.
  - rewrite (for_each_concat _ (over_loop_appends m inn_no _)).
    split; [intros H; split; [reflexivity|]; split; [reflexivity | exact H]
           | intros (_ & _ & H); exact H].
  - split; [discriminate | intros (_ & H & _); discriminate].
Qed.

(** Every row that [flatten_match] returns is the row of the delivery
    at the same place of the encounter order. *)
Lemma flatten_match_rows (obj : value) (balls : list Ball.t) :
  flatten_match obj = Ok balls ->
  exists m, match_fields_of obj = Ok m
            /\ Forall2 (fun p r => row_at m p = Ok r) (encounter_order obj) balls.
Proof.
  unfold flatten_match. intros H.
  apply bind_ok in H. destruct H as (m & Hm & H). exists m. split; [exact Hm|].
  apply bind_ok in H. destruct H as (il & Hil & H).
  apply py_get_ok in Hil. destruct Hil as [_ ->].
  apply bind_ok in H. destruct H as (inns & Hinns & H).
  apply (for_each_concat _ (innings_loop_appends m)) in H.
  destruct H as (rss & -> & F).
  unfold encounter_order, innings_of, items. rewrite Hinns.
  apply Forall2_flat_map. revert F. apply Forall2_weaken.
  intros [inn_no inn] rs _ Hrs. simpl.
  apply innings_loop_rows in Hrs. destruct Hrs as (_ & _ & rss' & -> & F').
  apply Forall2_flat_map. revert F'. apply Forall2_weaken.
  intros o rs' _ Hrs'. apply over_loop_rows in Hrs'.
  destruct Hrs' as (_ & _ & G). exact G.
Qed.

(* ---------------------------------------------------------------- *)
(** ** Well-formed documents flatten without error *)

Lemma py_get_field (o : value) (k : string) (dflt : value) :
  is_dict o = true -> py_get o k dflt = Ok (field o k dflt).
Proof. intros H. apply is_dict_inv in H. destruct H as [kv ->]. reflexivity. Qed.

Lemma or_list_shape (P : value -> bool) (v : value) :
  none_or_list_of P v = true ->
  exists l, py_or v (VList []) = VList l /\ forallb P l = true.
Proof.
  destruct v; simpl; try discriminate.
  - intros _. exists []. split; reflexivity.
  - intros H. exists l. split; [|exact H]. destruct l; reflexivity.
Qed.

Lemma strs_total (l : list value) :
  forallb is_str l = true -> exists ss, strs l = Ok ss.
Proof.
  induction l as [|v rest IH]; simpl.
  - intros _. exists []. reflexivity.
  - intros H. apply andb_true_iff in H. destruct H as [Hv Hrest].
    destruct v; try discriminate.
    destruct (IH Hrest) as [ss ->]. simpl. eauto.
Qed.

Lemma fielder_names_total (ws : list value) :
  forallb wf_wicket ws = true ->
  exists ns, fielder_names ws = Ok ns /\ forallb is_str ns = true.
Proof.
  induction ws as [|w rest IH]; simpl.
  - intros _. exists []. split; reflexivity.
  - intros H. apply andb_true_iff in H. destruct H as [Hw Hrest].
    destruct (IH Hrest) as (ns & Hns & Hstr).
    destruct w as [| | | | | |wkv]; try discriminate. simpl in Hw |- *.
    destruct (assoc "fielders" wkv) as [fs|]; simpl in Hw |- *;
      [|exists ns; auto].
    destruct fs as [| | | | |fl|]; try discriminate; simpl;
      [exists ns; auto|].
    destruct fl as [|f fl']; simpl in Hw |- *; [exists ns; auto|].
    apply andb_true_iff in Hw. destruct Hw as [Hf _].
    destruct f as [| | | | | |fkv]; try discriminate. simpl in Hf |- *.
    rewrite Hns. simpl.
    destruct (assoc "name" fkv) as [n|]; simpl in Hf.
    + exists (n :: ns). split; [reflexivity|]. simpl. rewrite Hf, Hstr. reflexivity.
    + exists (VStr "" :: ns). split; [reflexivity|]. exact Hstr.
Qed.

Lemma delivery_row_total (m : match_fields) (inn_no : Z) (team over_no d : value) :
  wf_match m = true -> wf_delivery d = true ->
  exists r, delivery_row m inn_no team over_no d = Ok r.
Proof.
  intros Hm Hd. unfold wf_match in Hm. apply andb_true_iff in Hm.
  destruct Hm as [Hdates Hteams].
  destruct d as [| | | | | |kv]; try discriminate.
  unfold wf_delivery in Hd. rewrite !andb_true_iff in Hd.
  destruct Hd as [[Hruns Hextras] Hwk].
  unfold delivery_row. rewrite !py_get_dict. cbn [bind].
  assert (Dr : is_dict (field (VDict kv) "runs" (VDict [])) = true).
  { unfold field, lookup. destruct (assoc "runs" kv); [exact Hruns | reflexivity]. }
  assert (De : is_dict (py_or (field (VDict kv) "extras" (VDict [])) (VDict [])) = true).
  { unfold field, lookup. destruct (assoc "extras" kv) as [e|]; [|reflexivity].
    simpl in Hextras. destruct e as [| | | | | |ekv]; try discriminate;
      [reflexivity | destruct ekv; reflexivity]. }
  assert (Dw : exists ws, py_or (field (VDict kv) "wickets" (VList [])) (VList []) = VList ws
                          /\ forallb wf_wicket ws = true).
  { unfold field, lookup. destruct (assoc "wickets" kv) as [w|].
    - apply or_list_shape. exact Hwk.
    - exists []. split; reflexivity. }
  destruct Dw as (ws & -> & Hws).
  destruct (or_list_shape _ _ Hdates) as (dl & -> & _).
  destruct (or_list_shape _ _ Hteams) as (tl & -> & Htl).
  cbn [py_iter bind]. unfold py_join.
  destruct (strs_total tl Htl) as [tss ->]. cbn [bind].
  rewrite !(py_get_field _ _ _ Dr), !(py_get_field _ _ _ De). cbn [bind].
  destruct ws as [|w0 ws']; cbn [truthy bind]; [eauto|].
  destruct (fielder_names_total _ Hws) as (ns & -> & Hns).
  cbn [bind py_iter]. destruct (strs_total ns Hns) as [nss ->].
  simpl in Hws. apply andb_true_iff in Hws. destruct Hws as [Hw0 _].
  destruct w0; try discriminate. cbn [py_index0 py_get bind]. eauto.
Qed.

Lemma match_fields_total (obj : value) :
  wf_document obj = true ->
  exists m, match_fields_of obj = Ok m /\ wf_match m = true.
Proof.
  destruct obj as [| | | | | |kv]; try discriminate. simpl.
  intros H. apply andb_true_iff in H. destruct H as [Hinfo _].
  unfold match_fields_of. rewrite py_get_dict. cbn [bind].
  assert (Hi : wf_info (field (VDict kv) "info" (VDict [])) = true).
  { unfold field, lookup. destruct (assoc "info" kv); [exact Hinfo | reflexivity]. }
  destruct (field (VDict kv) "info" (VDict [])) as [| | | | | |ikv]; try discriminate.
  simpl in Hi. rewrite !andb_true_iff in Hi. destruct Hi as [[Hev Hdates] Hteams].
  rewrite !py_get_dict. cbn [bind].
  assert (He : is_dict (field (VDict ikv) "event" (VDict [])) = true).
  { unfold field, lookup. destruct (assoc "event" ikv); [exact Hev | reflexivity]. }
  rewrite (py_get_field _ "match_number" VNone He).
  assert (Hwm : wf_match {| m_match_id := VNone; m_venue := VNone; m_city := VNone;
                            m_teams := field (VDict ikv) "teams" VNone;
                            m_dates := field (VDict ikv) "dates" VNone;
                            m_season := VNone |} = true).
  { unfold wf_match. cbn [m_dates m_teams]. unfold field, lookup.
    apply andb_true_iff. split.
    - destruct (assoc "dates" ikv); [exact Hdates | reflexivity].
    - destruct (assoc "teams" ikv); [exact Hteams | reflexivity]. }
  destruct (truthy (field (VDict ikv) "match_id" VNone)); cbn [bind];
    (eexists; split; [reflexivity | exact Hwm]).
Qed.

Lemma list_field_shape (P : value -> bool) (kv : list (string * value)) (k : string) :
  absent_or (list_of P) (assoc k kv) = true ->
  exists l, field (VDict kv) k (VList []) = VList l /\ forallb P l = true.
Proof.
  unfold field, lookup. destruct (assoc k kv) as [v|]; simpl.
  - destruct v; try discriminate. eauto.
  - exists []. split; reflexivity.
Qed.

Lemma over_loop_total (m : match_fields) (inn_no : Z) (inn o : value) :
  wf_match m = true -> wf_over o = true ->
  exists rows, over_loop m inn_no (field inn "team" VNone) o [] = Ok rows.
Proof.
  intros Hm Ho. destruct o as [| | | | | |kv]; try discriminate.
  destruct (list_field_shape _ _ _ Ho) as (ds & Hds & Hwf).
  destruct (Forall2_total (fun p r => row_at m p = Ok r)
              (map (mkpos inn_no inn (VDict kv)) ds)) as [rows F].
  { intros p Hp. apply in_map_iff in Hp. destruct Hp as (d & <- & Hin).
    apply delivery_row_total; [exact Hm|].
    rewrite forallb_forall in Hwf. apply Hwf. exact Hin. }
  exists rows. apply over_loop_rows. split; [reflexivity|].
  unfold deliveries_of, items. rewrite Hds. split; [reflexivity | exact F].
Qed.

Lemma innings_loop_total (m : match_fields) (inn_no : Z) (inn : value) :
  wf_match m = true -> wf_innings inn = true ->
  exists rows, innings_loop m (inn_no, inn) [] = Ok rows.
Proof.
  intros Hm Hi. destruct inn as [| | | | | |kv]; try discriminate.
  destruct (list_field_shape _ _ _ Hi) as (os & Hos & Hwf).
  destruct (Forall2_total
              (fun o rs => over_loop m inn_no (field (VDict kv) "team" VNone) o [] = Ok rs)
              os) as [rss F].
  { intros o Hin. apply over_loop_total; [exact Hm|].
    rewrite forallb_forall in Hwf. apply Hwf. exact Hin. }
  exists (List.concat rss). apply innings_loop_rows. split; [reflexivity|].
  unfold overs_of, items. rewrite Hos. split; [reflexivity|].
  exists rss. split; [reflexivity | exact F].
Qed.

Lemma in_enumerate {A : Type} (start : Z) (xs : list A) (p : Z * A) :
  In p (enumerate start xs) -> In (snd p) xs.
Proof.
  intros H. rewrite <- (enumerate_snd start xs). apply in_map. exact H.
Qed.

Lemma flatten_match_total (obj : value) :
  wf_document obj = true -> exists balls, flatten_match obj = Ok balls.
Proof.
  intros Hwf. destruct (match_fields_total obj Hwf) as (m & Hm & Hwm).
  destruct obj as [| | | | | |kv]; try discriminate.
  simpl in Hwf. apply andb_true_iff in Hwf. destruct Hwf as [_ Hinn].
  destruct (list_field_shape _ _ _ Hinn) as (inns & Hinns & Hall).
  unfold flatten_match. rewrite Hm, py_get_dict, Hinns. cbn [bind py_iter].
  destruct (Forall2_total (fun p rs => innings_loop m p [] = Ok rs)
              (enumerate 1 inns)) as [rss F].
  { intros [n inn] Hin. apply innings_loop_total; [exact Hwm|].
    apply in_enumerate in Hin. rewrite forallb_forall in Hall. apply Hall. exact Hin. }
  exists (List.concat rss). apply (for_each_concat _ (innings_loop_appends m)).
  exists rss. split; [reflexivity | exact F].
Qed.

(** C1. A well-formed match document flattens to exactly one row per
    delivery: the call returns, the number of rows is the sum of the
    delivery counts over all overs of all innings, and the row at each
    place is the row of the delivery at that place of the innings, over,
    delivery encounter order. *)
Theorem flatten_match_one_row_per_delivery (obj : value) :
  wf_document obj = true ->
  exists m balls,
    match_fields_of obj = Ok m
    /\ flatten_match obj = Ok balls
    /\ List.length balls = delivery_count obj
    /\ Forall2 (fun p r => row_at m p = Ok r) (encounter_order obj) balls.
Proof.
  intros Hwf. destruct (flatten_match_total obj Hwf) as [balls Hb].
  destruct (flatten_match_rows obj balls Hb) as (m & Hm & F).
  exists m, balls. repeat split; try assumption.
  rewrite <- encounter_order_length. symmetry.
  apply (Forall2_length F).
Qed.

(* ---------------------------------------------------------------- *)
(** ** What a row holds *)

Tactic Notation "step" ident(H) "as" ident(x) ident(E) :=
  apply bind_ok in H; destruct H as (x & E & H); cbv beta zeta in H.

Lemma index0_dict_shape (v x : value) :
  py_index0 v = Ok x -> is_dict x = true -> exists rest, v = VList (x :: rest).
Proof.
  destruct v as [| | | |s|l|]; simpl; try discriminate.
  - destruct s; try discriminate. intros H; injection H as <-. discriminate.
  - destruct l as [|y rest]; try discriminate.
    intros H; injection H as <-. eauto.
Qed.

Lemma falsy_items (v : value) : truthy v = false -> items v = [].
Proof.
  unfold items. destruct v as [| | | |s|l|kv]; simpl; try reflexivity.
  - intros H. apply negb_false_iff, String.eqb_eq in H. subst. reflexivity.
  - destruct l; [reflexivity | discriminate].
  - destruct kv; [reflexivity | discriminate].
Qed.

Lemma delivery_row_inv (m : match_fields) (inn_no : Z) (team over_no d : value)
      (r : Ball.t) :
  delivery_row m inn_no team over_no d = Ok r ->
  is_dict d = true
  /\ Ball.match_id r = m_match_id m
  /\ Ball.innings r = inn_no
  /\ Ball.batting_team r = team
  /\ Ball.over r = over_no
  /\ Ball.ball_label r = field d "ball" VNone
  /\ Ball.runs_batter r = field (runs_of d) "batter" (VInt 0)
  /\ Ball.runs_extras r = field (runs_of d) "extras" (VInt 0)
  /\ Ball.runs_total r = field (runs_of d) "total" (VInt 0)
  /\ Ball.extra_byes r = field (extras_of d) "byes" (VInt 0)
  /\ Ball.extra_legbyes r = field (extras_of d) "legbyes" (VInt 0)
  /\ Ball.extra_wides r = field (extras_of d) "wides" (VInt 0)
  /\ Ball.extra_noballs r = field (extras_of d) "noballs" (VInt 0)
  /\ Ball.extra_penalty r = field (extras_of d) "penalty" (VInt 0)
  /\ wickets_view d (Ball.wicket_kind r) (Ball.wicket_player_out r)
                  (Ball.wicket_fielders r).
Proof.
  unfold delivery_row. intros H. cbv beta zeta in H.
  step H as runs Eruns. step H as w Ew. step H as e Ee.
  step H as ds Eds. step H as ts Ets. step H as teams Eteams.
  step H as ball Eball. step H as bat Ebat. step H as bowl Ebowl.
  step H as ns Ens.
  step H as rb Erb. step H as re Ere. step H as rt Ert.
  step H as xb Exb. step H as xl Exl. step H as xw Exw.
  step H as xn Exn. step H as xp Exp.
  step H as wk Ewk. step H as wo Ewo. step H as wf Ewf.
  injection H as <-. cbn [Ball.match_id Ball.innings Ball.batting_team Ball.over
    Ball.ball_label Ball.runs_batter Ball.runs_extras Ball.runs_total
    Ball.extra_byes Ball.extra_legbyes Ball.extra_wides Ball.extra_noballs
    Ball.extra_penalty Ball.wicket_kind Ball.wicket_player_out Ball.wicket_fielders].
  repeat match goal with
         | E : py_get _ _ _ = Ok _ |- _ => apply py_get_ok in E; destruct E as [? ?]
         end.
  subst. unfold runs_of, extras_of.
  repeat (split; [solve [assumption | reflexivity]|]).
  unfold wickets_view, wicket_entries. cbv zeta.
  set (wl := py_or (field d "wickets" (VList [])) (VList [])) in *.
  destruct (truthy wl) eqn:T.
  - right.
    step Ewk as w0 E0. step Ewo as w0' E0'.
    step Ewf as ws Ews. step Ewf as names Enames. step Ewf as s Es.
    injection Ewf as <-.
    apply py_get_ok in Ewk, Ewo. destruct Ewk as [D0 ->]. destruct Ewo as [_ ->].
    rewrite E0 in E0'. injection E0' as <-.
    destruct (index0_dict_shape _ _ E0 D0) as [rest Hwl].
    rewrite Hwl in *. simpl in Ews. injection Ews as <-.
    exists w0, rest, names, s. unfold items. simpl. repeat split; assumption.
  - left. injection Ewk as <-. injection Ewo as <-. injection Ewf as <-.
    split; [reflexivity|]. split; [apply falsy_items; exact T|].
    repeat split.
Qed.

Lemma filter_none {A : Type} (f : A -> bool) (l : list A) :
  (forall x, In x l -> f x = false) -> filter f l = [].
Proof.
  induction l as [|x rest IH]; simpl; intros H; [reflexivity|].
  rewrite (H x (or_introl eq_refl)). apply IH.
  intros y Hy. apply H. right. exact Hy.
Qed.

Lemma strs_cons_inv (v : value) (rest : list value) (ss : list string) :
  strs (v :: rest) = Ok ss ->
  exists s ss', v = VStr s /\ strs rest = Ok ss' /\ ss = s :: ss'.
Proof.
  destruct v; simpl; try discriminate.
  intros H. apply bind_ok in H. destruct H as (ss' & E & H).
  injection H as <-. eauto.
Qed.

(** The names collected by the comprehension are the first fielder's
    name of each entry that has a fielder, in order. *)
Lemma fielder_names_spec (ws names : list value) (ss : list string) :
  fielder_names ws = Ok names -> strs names = Ok ss ->
  ss = map first_fielder_name (filter has_fielder ws).
Proof.
  revert names ss. induction ws as [|w rest IH]; intros names ss Hn Hs.
  - simpl in Hn. injection Hn as <-. simpl in Hs. injection Hs as <-. reflexivity.
  - simpl in Hn. step Hn as c Ec. apply py_get_ok in Ec. destruct Ec as [Dw ->].
    destruct (truthy (field w "fielders" VNone)) eqn:T.
    + step Hn as fs Efs. step Hn as f Ef. step Hn as n En. step Hn as ns Ens.
      injection Hn as <-.
      apply py_get_ok in Efs, En. destruct Efs as [_ ->]. destruct En as [Df ->].
      assert (Efield : field w "fielders" (VList [VDict []]) = field w "fielders" VNone).
      { unfold field in *. destruct (lookup w "fielders"); [reflexivity | discriminate]. }
      rewrite Efield in Ef.
      destruct (index0_dict_shape _ _ Ef Df) as [more Hc].
      apply strs_cons_inv in Hs. destruct Hs as (s & ss' & Hname & Hss' & ->).
      assert (Hfo : fielders_of w = f :: more).
      { unfold fielders_of. rewrite (py_or_true _ _ T), Hc. reflexivity. }
      simpl filter. unfold has_fielder at 1. rewrite Hfo. simpl map.
      unfold first_fielder_name at 1. rewrite Hfo, Hname.
      f_equal. apply (IH ns ss' Ens Hss').
    + assert (Hfo : fielders_of w = []).
      { unfold fielders_of. rewrite (py_or_false _ _ T). reflexivity. }
      simpl filter. unfold has_fielder at 1. rewrite Hfo.
      apply (IH names ss Hn Hs).
Qed.

(** The three wicket fields of a row in the words of the specification. *)
Lemma wicket_fields_spec (m : match_fields) (inn_no : Z) (team over_no d : value)
      (r : Ball.t) :
  delivery_row m inn_no team over_no d = Ok r ->
  match wicket_entries d with
  | [] => Ball.wicket_kind r = VNone
          /\ Ball.wicket_player_out r = VNone
          /\ Ball.wicket_fielders r = VNone
  | w0 :: rest =>
      Ball.wicket_kind r = field w0 "kind" VNone
      /\ Ball.wicket_player_out r = field w0 "player_out" VNone
      /\ Ball.wicket_fielders r =
         VStr (String.concat "," (map first_fielder_name
                                      (filter has_fielder (w0 :: rest))))
  end.
Proof.
  intros H. apply delivery_row_inv in H.
  destruct H as (_ & _ & _ & _ & _ & _ & _ & _ & _ & _ & _ & _ & _ & _ & W).
  destruct W as [(_ & -> & Hk & Ho & Hf)
                |(w0 & rest & names & s & _ & -> & Hk & Ho & Hn & Hj & Hf)].
  - auto.
  - split; [exact Hk|]. split; [exact Ho|]. rewrite Hf.
    unfold py_join in Hj. apply bind_ok in Hj. destruct Hj as (ss & Hss & Hj).
    injection Hj as <-. rewrite (fielder_names_spec _ _ _ Hn Hss). reflexivity.
Qed.

(* ---------------------------------------------------------------- *)
(** ** The delivery flattener *)

(** C3. In the row of a delivery with a non-empty wickets list,
    wicket_kind and wicket_player_out are those of the first entry, and
    wicket_fielders joins with commas, in order, the first fielder's
    name of every entry that has a fielder, the other entries adding
    nothing; two entries with the single fielders "A" and "B" give
    "A,B". *)
Theorem wicket_fields_of_first_entry (m : match_fields) (inn_no : Z)
        (team over_no d : value) (r : Ball.t) (w0 : value) (rest : list value) :
  delivery_row m inn_no team over_no d = Ok r ->
  wicket_entries d = w0 :: rest ->
  Ball.wicket_kind r = field w0 "kind" VNone
  /\ Ball.wicket_player_out r = field w0 "player_out" VNone
  /\ Ball.wicket_fielders r =
     VStr (String.concat "," (map first_fielder_name
                                  (filter has_fielder (w0 :: rest))))
  /\ (forall w1 f0 f1,
         rest = [w1] ->
         fielders_of w0 = [f0] -> lookup f0 "name" = Some (VStr "A") ->
         fielders_of w1 = [f1] -> lookup f1 "name" = Some (VStr "B") ->
         Ball.wicket_fielders r = VStr "A,B").
Proof.
  intros H He. pose proof (wicket_fields_spec _ _ _ _ _ _ H) as S.
  rewrite He in S. destruct S as (Hk & Ho & Hf).
  repeat split; try assumption.
  intros w1 f0 f1 -> F0 N0 F1 N1. rewrite Hf.
  simpl filter. unfold has_fielder. rewrite F0, F1. simpl map.
  unfold first_fielder_name. rewrite F0, F1. unfold field. rewrite N0, N1.
  reflexivity.
Qed.

(** C6. A well-formed delivery always gets its row, and every numeric
    subfield that its runs breakdown or its extras breakdown omits is 0
    in that row. *)
Theorem omitted_numeric_subfields_are_zero (m : match_fields) (inn_no : Z)
        (team over_no d : value) :
  wf_match m = true -> wf_delivery d = true ->
  exists r, delivery_row m inn_no team over_no d = Ok r
    /\ (omits (runs_of d) "batter" -> Ball.runs_batter r = VInt 0)
    /\ (omits (runs_of d) "extras" -> Ball.runs_extras r = VInt 0)
    /\ (omits (runs_of d) "total" -> Ball.runs_total r = VInt 0)
    /\ (omits (extras_of d) "byes" -> Ball.extra_byes r = VInt 0)
    /\ (omits (extras_of d) "legbyes" -> Ball.extra_legbyes r = VInt 0)
    /\ (omits (extras_of d) "wides" -> Ball.extra_wides r = VInt 0)
    /\ (omits (extras_of d) "noballs" -> Ball.extra_noballs r = VInt 0)
    /\ (omits (extras_of d) "penalty" -> Ball.extra_penalty r = VInt 0).
Proof.
  intros Hm Hd.
  destruct (delivery_row_total m inn_no team over_no d Hm Hd) as [r Hr].
  exists r. split; [exact Hr|].
  apply delivery_row_inv in Hr.
  destruct Hr as (_ & _ & _ & _ & _ & _ & Hrb & Hre & Hrt & Hxb & Hxl & Hxw & Hxn & Hxp & _).
  unfold omits.
  repeat split; intros O;
    match goal with
    | E : ?x = field _ _ _ |- ?x = _ => rewrite E; unfold field; rewrite O; reflexivity
    end.
Qed.

(** C7. A well-formed delivery with no wicket entry always gets its
    row, and wicket_kind, wicket_player_out and wicket_fielders are all
    null in it. *)
Theorem no_wicket_gives_null_fields (m : match_fields) (inn_no : Z)
        (team over_no d : value) :
  wf_match m = true -> wf_delivery d = true ->
  wicket_entries d = [] ->
  exists r, delivery_row m inn_no team over_no d = Ok r
    /\ Ball.wicket_kind r = VNone
    /\ Ball.wicket_player_out r = VNone
    /\ Ball.wicket_fielders r = VNone.
Proof.
  intros Hm Hd He.
  destruct (delivery_row_total m inn_no team over_no d Hm Hd) as [r Hr].
  exists r. split; [exact Hr|].
  pose proof (wicket_fields_spec _ _ _ _ _ _ Hr) as S.
  rewrite He in S. exact S.
Qed.

(** C10. In the row of a delivery that has wicket entries none of which
    has a fielder, wicket_fielders is the empty string; and a row whose
    wicket_fielders is null comes from a delivery without wicket
    entries. *)
Theorem fielderless_wickets_give_empty_string (m : match_fields) (inn_no : Z)
        (team over_no d : value) (r : Ball.t) :
  delivery_row m inn_no team over_no d = Ok r ->
  (wicket_entries d <> [] ->
   (forall w, In w (wicket_entries d) -> fielders_of w = []) ->
   Ball.wicket_fielders r = VStr "")
  /\ (Ball.wicket_fielders r = VNone -> wicket_entries d = []).
Proof.
  intros H. pose proof (wicket_fields_spec _ _ _ _ _ _ H) as S.
  destruct (wicket_entries d) as [|w0 rest] eqn:He.
  - split; [intros C; contradiction | reflexivity].
  - destruct S as (_ & _ & Hf). split.
    + intros _ Hall. rewrite Hf.
      assert (E : filter has_fielder (w0 :: rest) = []).
      { apply filter_none. intros w Hin. unfold has_fielder.
        rewrite (Hall w Hin). reflexivity. }
      rewrite E. reflexivity.
    + rewrite Hf. discriminate.
Qed.

Lemma match_fields_inv (obj : value) (m : match_fields) :
  match_fields_of obj = Ok m ->
  let info := field obj "info" (VDict []) in
  (truthy (field info "match_id" VNone) = true
   /\ m_match_id m = field info "match_id" VNone)
  \/ (truthy (field info "match_id" VNone) = false
      /\ is_dict (field info "event" (VDict [])) = true
      /\ m_match_id m = field (field info "event" (VDict [])) "match_number" VNone).
Proof.
  unfold match_fields_of. intros H.
  step H as info Einfo. apply py_get_ok in Einfo. destruct Einfo as [_ ->].
  step H as mid Emid. apply py_get_ok in Emid. destruct Emid as [_ ->].
  step H as match_id Eid.
  step H as venue Ev. step H as city Ec. step H as teams Et.
  step H as dates Ed. step H as season Es.
  injection H as <-. cbn [m_match_id].
  destruct (truthy (field (field obj "info" (VDict [])) "match_id" VNone)) eqn:T.
  - left. injection Eid as <-. split; reflexivity.
  - right. step Eid as ev Eev. apply py_get_ok in Eev. destruct Eev as [_ ->].
    apply py_get_ok in Eid. destruct Eid as [De ->]. repeat split. exact De.
Qed.

Lemma Forall2_in_r {A B : Type} (R : A -> B -> Prop) (xs : list A) (ys : list B) (y : B) :
  Forall2 R xs ys -> In y ys -> exists x, In x xs /\ R x y.
Proof.
  induction 1 as [|x y' xs ys Hxy F IH]; simpl; [contradiction|].
  intros [<-|Hin].
  - exists x. auto.
  - destruct (IH Hin) as (x' & Hx' & HR). exists x'. auto.
Qed.

(** C9. When info has no match_id field, every row of the flattened
    document carries info.event.match_number as its match_id; it is null
    only if the event gives no match number (none, or null). *)
Theorem match_id_falls_back_to_event (obj : value) (balls : list Ball.t) :
  flatten_match obj = Ok balls ->
  lookup (field obj "info" (VDict [])) "match_id" = None ->
  let event := field (field obj "info" (VDict [])) "event" (VDict []) in
  forall r, In r balls ->
    Ball.match_id r = field event "match_number" VNone
    /\ (Ball.match_id r = VNone ->
        lookup event "match_number" = None
        \/ lookup event "match_number" = Some VNone).
Proof.
  intros Hb Hno event r Hin.
  destruct (flatten_match_rows obj balls Hb) as (m & Hm & F).
  destruct (Forall2_in_r _ _ _ _ F Hin) as (p & _ & Hr).
  apply delivery_row_inv in Hr. destruct Hr as (_ & Hid & _).
  apply match_fields_inv in Hm. cbv zeta in Hm.
  assert (T : truthy (field (field obj "info" (VDict [])) "match_id" VNone) = false).
  { unfold field at 1. rewrite Hno. reflexivity. }
  destruct Hm as [[T' _]|(_ & _ & Hmid)]; [congruence|].
  assert (E : Ball.match_id r = field event "match_number" VNone)
    by (rewrite Hid, Hmid; reflexivity).
  split; [exact E|].
  rewrite E. unfold field. destruct (lookup event "match_number") as [v|]; auto.
  intros ->. auto.
Qed.

(* ---------------------------------------------------------------- *)
(** ** The run of the pipeline *)

Lemma scan_entry_rejected (e : entry) :
  (forall obj, content e = Some obj -> ~ passes_filters obj) ->
  scan_entry e [] = Ok [] \/ exists ex, scan_entry e [] = Raise ex.
Proof.
  intros Hno. unfold scan_entry.
  destruct (content e) as [obj|] eqn:C; [|left; reflexivity].
  specialize (Hno obj eq_refl). unfold passes_filters in Hno.
  destruct (py_get obj "info" (VDict [])) as [info|ex]; simpl; [|eauto].
  destruct (is_ind_eng_test info) as [[|]|ex] eqn:A; simpl; [|auto|eauto].
  destruct (within_series_window info) as [[|]|ex] eqn:W; simpl; [|auto|eauto].
  exfalso. apply Hno. exists info. auto.
Qed.

Lemma scan_entry_decided (e : entry) :
  (forall obj, content e = Some obj -> ~ passes_filters obj) ->
  (forall obj, content e = Some obj -> filters_decide obj) ->
  scan_entry e [] = Ok [].
Proof.
  intros Hno Hdec. destruct (scan_entry_rejected e Hno) as [H|[ex H]]; [exact H|].
  exfalso. unfold scan_entry in H.
  destruct (content e) as [obj|] eqn:C; [|discriminate].
  destruct (Hdec obj eq_refl) as (info & a & Hi & Ha & Hw).
  rewrite Hi in H. cbn [bind] in H. rewrite Ha in H. cbn [bind] in H.
  destruct a; cbn [negb] in H; [|discriminate].
  destruct (Hw eq_refl) as [b Hb]. rewrite Hb in H. cbn [bind] in H.
  destruct b; cbn [negb] in H; [|discriminate].
  apply (Hno obj eq_refl). exists info. auto.
Qed.

Lemma scan_rejected (files : list entry) :
  (forall e, In e files -> forall obj, content e = Some obj -> ~ passes_filters obj) ->
  (for_each files scan_entry [] = Ok [] \/ exists ex, for_each files scan_entry [] = Raise ex)
  /\ ((forall e, In e files -> forall obj, content e = Some obj -> filters_decide obj) ->
      for_each files scan_entry [] = Ok []).
Proof.
  induction files as [|e rest IH]; intros Hno; simpl.
  - split; auto.
  - destruct IH as [IH1 IH2]; [intros e' He'; apply Hno; right; exact He'|].
    split.
    + destruct (scan_entry_rejected e (Hno e (or_introl eq_refl))) as [->|[ex ->]];
        simpl; [exact IH1 | eauto].
    + intros Hdec.
      rewrite (scan_entry_decided e (Hno e (or_introl eq_refl))
                                  (Hdec e (or_introl eq_refl))).
      simpl. apply IH2. intros e' He'. apply Hdec. right. exact He'.
Qed.

(** C8. When no scanned document passes the three filters, [main] ends
    with an exception and leaves the output file as it was; when,
    besides, every filter comes to a verdict, the exception is the
    SystemExit carrying the "no matches found" message. *)
Theorem main_no_match_is_fatal (zf : list entry) (out_csv : option string) :
  (forall obj, scanned zf obj -> ~ passes_filters obj) ->
  (exists ex, main (Ok zf) out_csv = (Raise ex, out_csv))
  /\ ((forall obj, scanned zf obj -> filters_decide obj) ->
      main (Ok zf) out_csv = (Raise (SystemExit OUT_MSG), out_csv)).
Proof.
  intros Hno. unfold main, finish.
  set (json_files := filter (fun e => endswith (name e) ".json") zf).
  assert (Hsc : forall e, In e json_files -> forall obj, content e = Some obj ->
                          scanned zf obj).
  { intros e He obj Hc. apply filter_In in He. destruct He as [Hin Hend].
    exists e. auto. }
  destruct (scan_rejected json_files) as [H1 H2].
  { intros e He obj Hc. apply Hno. apply (Hsc e He obj Hc). }
  split.
  - destruct H1 as [->|[ex ->]]; eauto.
  - intros Hdec. rewrite H2; [reflexivity|].
    intros e He obj Hc. apply Hdec. apply (Hsc e He obj Hc).
Qed.

(* ---------------------------------------------------------------- *)
(** ** Further properties of the flattener *)

Lemma Forall2_in_l {A B : Type} (R : A -> B -> Prop) (xs : list A) (ys : list B) (x : A) :
  Forall2 R xs ys -> In x xs -> exists y, In y ys /\ R x y.
Proof.
  induction 1 as [|x' y xs ys Hxy F IH]; simpl; [contradiction|].
  intros [<-|Hin].
  - exists y. auto.
  - destruct (IH Hin) as (y' & Hy' & HR). exists y'. auto.
Qed.

Lemma Forall2_map_eq {A B C : Type} (f : A -> C) (g : B -> C) (xs : list A) (ys : list B) :
  Forall2 (fun x y => g y = f x) xs ys -> map g ys = map f xs.
Proof. induction 1; simpl; congruence. Qed.

(** The fields of a row that are handed through from the match, the
    innings, the over and the delivery. *)
Lemma delivery_row_passthrough (m : match_fields) (inn_no : Z) (team over_no d : value)
      (r : Ball.t) :
  delivery_row m inn_no team over_no d = Ok r ->
  (Ball.innings r = inn_no
   /\ Ball.batting_team r = team
   /\ Ball.over r = over_no
   /\ Ball.ball_label r = field d "ball" VNone
   /\ Ball.batter r = field d "batter" VNone
   /\ Ball.bowler r = field d "bowler" VNone
   /\ Ball.non_striker r = field d "non_striker" VNone)
  /\ (Ball.match_id r = m_match_id m
      /\ Ball.season r = m_season m
      /\ Ball.venue r = m_venue m
      /\ Ball.city r = m_city m
      /\ Ball.date_list r
         = String.concat "," (map py_str (items (py_or (m_dates m) (VList []))))
      /\ exists tss, strs (items (py_or (m_teams m) (VList []))) = Ok tss
                     /\ Ball.teams r = String.concat "," tss).
Proof.
  unfold delivery_row. intros H. cbv beta zeta in H.
  step H as runs Eruns. step H as w Ew. step H as e Ee.
  step H as ds Eds. step H as ts Ets. step H as teams Eteams.
  step H as ball Eball. step H as bat Ebat. step H as bowl Ebowl.
  step H as ns Ens.
  step H as rb Erb. step H as re Ere. step H as rt Ert.
  step H as xb Exb. step H as xl Exl. step H as xw Exw.
  step H as xn Exn. step H as xp Exp.
  step H as wk Ewk. step H as wo Ewo. step H as wf Ewf.
  injection H as <-.
  cbn [Ball.match_id Ball.season Ball.date_list Ball.venue Ball.city Ball.teams
       Ball.innings Ball.batting_team Ball.over Ball.ball_label Ball.batter
       Ball.bowler Ball.non_striker].
  apply py_get_ok in Eball, Ebat, Ebowl, Ens.
  destruct Eball as [_ ->]. destruct Ebat as [_ ->].
  destruct Ebowl as [_ ->]. destruct Ens as [_ ->].
  split; [repeat split|].
  repeat (split; [reflexivity|]).
  unfold items. rewrite Eds, Ets. split; [reflexivity|].
  unfold py_join in Eteams. apply bind_ok in Eteams.
  destruct Eteams as (tss & Htss & E). injection E as <-.
  exists tss. split; [exact Htss | reflexivity].
Qed.

(** X1. Each row carries, unchanged, what identifies its delivery: the
    innings number of the enumeration, the team of its innings, the
    "over" of its over block, and the ball, batter, bowler and
    non_striker of the delivery (null for a missing one). *)
Theorem rows_carry_their_position (obj : value) (balls : list Ball.t) :
  flatten_match obj = Ok balls ->
  Forall2
    (fun p r =>
       Ball.innings r = pos_no p
       /\ Ball.batting_team r = field (pos_innings p) "team" VNone
       /\ Ball.over r = field (pos_over p) "over" VNone
       /\ Ball.ball_label r = field (pos_delivery p) "ball" VNone
       /\ Ball.batter r = field (pos_delivery p) "batter" VNone
       /\ Ball.bowler r = field (pos_delivery p) "bowler" VNone
       /\ Ball.non_striker r = field (pos_delivery p) "non_striker" VNone)
    (encounter_order obj) balls.
Proof.
  intros H. destruct (flatten_match_rows obj balls H) as (m & _ & F).
  revert F. apply Forall2_weaken. intros p r _ Hr.
  apply delivery_row_passthrough in Hr. destruct Hr as [Hr _]. exact Hr.
Qed.

Lemma in_enumerate_nth {A : Type} (start : Z) (xs : list A) (n : Z) (x : A) :
  In (n, x) (enumerate start xs) ->
  start <= n < start + Z.of_nat (List.length xs)
  /\ nth_error xs (Z.to_nat (n - start)) = Some x.
Proof.
  revert start. induction xs as [|a rest IH]; intros start; simpl; [contradiction|].
  intros [E|Hin].
  - injection E as <- <-. split; [lia|].
    replace (Z.to_nat (start - start)) with 0%nat by lia. reflexivity.
  - destruct (IH (start + 1) Hin) as [Hr Hn]. split; [lia|].
    replace (Z.to_nat (n - start)) with (S (Z.to_nat (n - (start + 1)))) by lia.
    exact Hn.
Qed.

Lemma encounter_order_in (obj : value) (p : position) :
  In p (encounter_order obj) ->
  In (pos_no p, pos_innings p) (enumerate 1 (innings_of obj))
  /\ In (pos_over p) (overs_of (pos_innings p))
  /\ In (pos_delivery p) (deliveries_of (pos_over p)).
Proof.
  unfold encounter_order. intros H.
  apply in_flat_map in H. destruct H as ([n inn] & Hinn & H).
  apply in_flat_map in H. destruct H as (o & Ho & H).
  apply in_map_iff in H. destruct H as (d & <- & Hd).
  simpl in *. auto.
Qed.

(** X2. Innings are numbered from 1 in document order: the innings
    number of a row lies between 1 and the number of innings, and the
    row's batting_team is the "team" of the innings at that place. *)
Theorem innings_number_is_document_place (obj : value) (balls : list Ball.t) (r : Ball.t) :
  flatten_match obj = Ok balls ->
  In r balls ->
  1 <= Ball.innings r <= Z.of_nat (List.length (innings_of obj))
  /\ exists inn,
       nth_error (innings_of obj) (Z.to_nat (Ball.innings r - 1)) = Some inn
       /\ Ball.batting_team r = field inn "team" VNone.
Proof.
  intros H Hin.
  destruct (flatten_match_rows obj balls H) as (m & _ & F).
  destruct (Forall2_in_r _ _ _ _ F Hin) as (p & Hp & Hr).
  apply delivery_row_passthrough in Hr. destruct Hr as [(Hno & Hteam & _) _].
  apply encounter_order_in in Hp. destruct Hp as (Hp & _).
  apply in_enumerate_nth in Hp. destruct Hp as [Hr Hn].
  rewrite Hno. split; [lia|]. exists (pos_innings p). split; assumption.
Qed.

Lemma sorted_app (l1 l2 : list Z) :
  StronglySorted Z.le l1 -> StronglySorted Z.le l2 ->
  (forall x y, In x l1 -> In y l2 -> x <= y) ->
  StronglySorted Z.le (l1 ++ l2).
Proof.
  induction 1 as [|a l1 S1 IH F1]; intros S2 Hc; simpl; [exact S2|].
  constructor.
  - apply IH; [exact S2|]. intros x y Hx Hy. apply Hc; [right; exact Hx | exact Hy].
  - apply Forall_app. split; [exact F1|].
    apply Forall_forall. intros y Hy. apply Hc; [left; reflexivity | exact Hy].
Qed.

Lemma sorted_constant (c : Z) (l : list Z) :
  (forall x, In x l -> x = c) -> StronglySorted Z.le l.
Proof.
  induction l as [|a l IH]; intros H; constructor.
  - apply IH. intros x Hx. apply H. right. exact Hx.
  - apply Forall_forall. intros y Hy.
    rewrite (H a (or_introl eq_refl)), (H y (or_intror Hy)). lia.
Qed.

Lemma positions_sorted (start : Z) (inns : list value) :
  StronglySorted Z.le
    (map pos_no
       (flat_map
          (fun p : Z * value =>
             flat_map (fun o => map (mkpos (fst p) (snd p) o) (deliveries_of o))
                      (overs_of (snd p)))
          (enumerate start inns))).
Proof.
  revert start. induction inns as [|inn rest IH]; intros start; simpl; [constructor|].
  rewrite map_app. apply sorted_app; [|apply IH|].
  - apply (sorted_constant start). intros x Hx.
    apply in_map_iff in Hx. destruct Hx as (p & <- & Hp).
    apply in_flat_map in Hp. destruct Hp as (o & _ & Hp).
    apply in_map_iff in Hp. destruct Hp as (d & <- & _). reflexivity.
  - intros x y Hx Hy.
    apply in_map_iff in Hx. destruct Hx as (p & <- & Hp).
    apply in_flat_map in Hp. destruct Hp as (o & _ & Hp).
    apply in_map_iff in Hp. destruct Hp as (d & <- & _).
    apply in_map_iff in Hy. destruct Hy as (q & <- & Hq).
    apply in_flat_map in Hq. destruct Hq as ([n i] & Hni & Hq).
    apply in_flat_map in Hq. destruct Hq as (o' & _ & Hq).
    apply in_map_iff in Hq. destruct Hq as (d' & <- & _).
    apply in_enumerate_nth in Hni. simpl. lia.
Qed.

(** X3. Along the returned list the innings numbers never decrease: the
    rows of one innings are consecutive and come before those of any
    later innings. *)
Theorem innings_numbers_never_decrease (obj : value) (balls : list Ball.t) :
  flatten_match obj = Ok balls ->
  StronglySorted Z.le (map Ball.innings balls).
Proof.
  intros H. destruct (flatten_match_rows obj balls H) as (m & _ & F).
  assert (E : map Ball.innings balls = map pos_no (encounter_order obj)).
  { apply Forall2_map_eq. revert F. apply Forall2_weaken. intros p r _ Hr.
    apply delivery_row_passthrough in Hr. destruct Hr as [(Hno & _) _]. exact Hno. }
  rewrite E. apply positions_sorted.
Qed.

Lemma match_fields_values (obj : value) (m : match_fields) :
  match_fields_of obj = Ok m ->
  let info := field obj "info" (VDict []) in
  m_venue m = field info "venue" VNone
  /\ m_city m = field info "city" VNone
  /\ m_season m = field info "season" VNone
  /\ m_dates m = field info "dates" VNone
  /\ m_teams m = field info "teams" VNone.
Proof.
  unfold match_fields_of. intros H.
  step H as info Einfo. apply py_get_ok in Einfo. destruct Einfo as [_ ->].
  step H as mid Emid. step H as match_id Eid.
  step H as venue Ev. step H as city Ec. step H as teams Et.
  step H as dates Ed. step H as season Es.
  injection H as <-. cbn [m_venue m_city m_season m_dates m_teams].
  apply py_get_ok in Ev, Ec, Et, Ed, Es.
  destruct Ev as [_ ->]. destruct Ec as [_ ->]. destruct Et as [_ ->].
  destruct Ed as [_ ->]. destruct Es as [_ ->]. repeat split.
Qed.

(** X4. Every row of a match repeats the match-level data of info:
    venue, city and season as they are (null when missing), date_list as
    the comma-joined [str] of the dates, and teams as the comma-joined team
    names, which therefore are all strings. *)
Theorem rows_repeat_match_data (obj : value) (balls : list Ball.t) (r : Ball.t) :
  flatten_match obj = Ok balls ->
  In r balls ->
  let info := field obj "info" (VDict []) in
  Ball.venue r = field info "venue" VNone
  /\ Ball.city r = field info "city" VNone
  /\ Ball.season r = field info "season" VNone
  /\ Ball.date_list r
     = String.concat "," (map py_str (items (py_or (field info "dates" VNone) (VList []))))
  /\ exists names,
       strs (items (py_or (field info "teams" VNone) (VList []))) = Ok names
       /\ Ball.teams r = String.concat "," names.
Proof.
  intros H Hin info.
  destruct (flatten_match_rows obj balls H) as (m & Hm & F).
  destruct (Forall2_in_r _ _ _ _ F Hin) as (p & _ & Hr).
  apply delivery_row_passthrough in Hr.
  destruct Hr as [_ (_ & Hs & Hv & Hc & Hd & names & Hn & Ht)].
  apply match_fields_values in Hm. cbv zeta in Hm.
  destruct Hm as (Ev & Ec & Es & Ed & Et).
  fold info in Ev, Ec, Es, Ed, Et.
  rewrite Hv, Hc, Hs, Hd, Ev, Ec, Es, Ed. repeat split.
  exists names. rewrite <- Et. split; assumption.
Qed.

(** X5. A match_id of info that counts as true is the match_id of every
    row; one that is missing or counts as false (null, 0, the empty
    string) gives way to info.event.match_number. *)
Theorem match_id_prefers_info (obj : value) (balls : list Ball.t) (r : Ball.t) :
  flatten_match obj = Ok balls ->
  In r balls ->
  let info := field obj "info" (VDict []) in
  (truthy (field info "match_id" VNone) = true ->
   Ball.match_id r = field info "match_id" VNone)
  /\ (truthy (field info "match_id" VNone) = false ->
      Ball.match_id r = field (field info "event" (VDict [])) "match_number" VNone).
Proof.
  intros H Hin info.
  destruct (flatten_match_rows obj balls H) as (m & Hm & F).
  destruct (Forall2_in_r _ _ _ _ F Hin) as (p & _ & Hr).
  apply delivery_row_passthrough in Hr. destruct Hr as [_ (Hid & _)].
  apply match_fields_inv in Hm. cbv zeta in Hm. fold info in Hm.
  rewrite Hid.
  destruct Hm as [[T E]|(T & _ & E)]; split; intros T'; congruence.
Qed.

(** X6. Flattening is all or nothing: when the row of one delivery of
    the document cannot be built, [flatten_match] raises and no row of
    any other delivery is returned. *)
Theorem one_bad_delivery_fails_the_match (obj : value) (m : match_fields) (p : position) :
  match_fields_of obj = Ok m ->
  In p (encounter_order obj) ->
  is_ok (row_at m p) = false ->
  is_ok (flatten_match obj) = false.
Proof.
  intros Hm Hp Hbad. destruct (flatten_match obj) as [balls|ex] eqn:H; [|reflexivity].
  destruct (flatten_match_rows obj balls H) as (m' & Hm' & F).
  assert (m' = m) by congruence. subst m'.
  destruct (Forall2_in_l _ _ _ _ F Hp) as (r & _ & Hr).
  rewrite Hr in Hbad. discriminate.
Qed.

Lemma strs_not_all_str (ts : list value) :
  forallb is_str ts = false -> strs ts = Raise TypeError.
Proof.
  induction ts as [|t rest IH]; simpl; [discriminate|].
  destruct t; simpl; try reflexivity.
  intros H. rewrite (IH H). reflexivity.
Qed.

(** X7. A team entry that is not a string makes the row of every
    delivery fail with TypeError (dates, in contrast, go through [str]
    first). *)
Theorem non_string_team_raises (m : match_fields) (inn_no : Z) (team over_no d : value)
        (ds ts : list value) :
  is_dict d = true ->
  py_iter (py_or (m_dates m) (VList [])) = Ok ds ->
  py_iter (py_or (m_teams m) (VList [])) = Ok ts ->
  forallb is_str ts = false ->
  delivery_row m inn_no team over_no d = Raise TypeError.
Proof.
  intros Hd Hds Hts Hstr. apply is_dict_inv in Hd. destruct Hd as [kv ->].
  unfold delivery_row. rewrite !py_get_dict. cbn [bind].
  rewrite Hds, Hts. cbn [bind]. unfold py_join.
  rewrite (strs_not_all_str ts Hstr). reflexivity.
Qed.

(* ---------------------------------------------------------------- *)
(** ** Further properties of the filters *)

(** X8. The date-window check raises in two cases only: AttributeError
    when info is not a mapping, TypeError when "dates" holds a true value
    that cannot be iterated (a number, [True]).  Dates that are missing,
    null or empty make it return False. *)
Theorem within_series_window_raises_exactly (info : value) :
  (is_dict info = false -> within_series_window info = Raise AttributeError)
  /\ (is_dict info = true ->
      let dates := field info "dates" VNone in
      (truthy dates = false -> within_series_window info = Ok false)
      /\ (truthy dates = true -> iterable dates = true ->
          is_ok (within_series_window info) = true)
      /\ (truthy dates = true -> iterable dates = false ->
          within_series_window info = Raise TypeError)).
Proof.
  split.
  - destruct info; simpl; intros H; try reflexivity; discriminate.
  - intros Hd. apply is_dict_inv in Hd. destruct Hd as [kv ->].
    unfold within_series_window. rewrite py_get_dict. cbn [bind].
    cbv zeta. set (dates := field (VDict kv) "dates" VNone).
    split; [|split].
    + intros T. rewrite (py_or_false _ _ T). reflexivity.
    + intros T I. rewrite (py_or_true _ _ T).
      destruct dates; try discriminate; reflexivity.
    + intros T I. rewrite (py_or_true _ _ T).
      destruct dates; try discriminate; reflexivity.
Qed.

(** X11. With [START] and [END] as set on lines 18-19, a single declared
    date that parses to a calendar day is accepted exactly when it lies in
    June, July or August 2025. *)
Theorem window_is_june_to_august_2025 (info d : value) (dt : date) :
  is_dict info = true ->
  declared info "dates" = Ok [d] ->
  fromisoformat_date (py_str d) = Some dt ->
  1 <= day dt <= 31 ->
  exists b, within_series_window info = Ok b
            /\ (b = true <-> year dt = 2025 /\ 6 <= month dt <= 8).
Proof.
  intros Hd Hds Hp Hday. apply is_dict_inv in Hd. destruct Hd as [kv ->].
  unfold within_series_window. rewrite py_get_dict. cbn [bind].
  unfold declared in Hds. rewrite Hds. cbn [bind window_loop]. rewrite Hp.
  destruct (date_le START dt) eqn:L1; destruct (date_le dt END) eqn:L2;
    cbn [andb]; eexists; (split; [reflexivity|]).
  - apply date_le_spec in L1, L2. unfold on_or_before in L1, L2. simpl in L1, L2.
    split; [intros _; lia | reflexivity].
  - split; [discriminate|]. intros [Hy Hm].
    assert (E : date_le dt END = true)
      by (apply date_le_spec; unfold on_or_before; simpl; lia).
    congruence.
  - split; [discriminate|]. intros [Hy Hm].
    assert (E : date_le START dt = true)
      by (apply date_le_spec; unfold on_or_before; simpl; lia).
    congruence.
  - split; [discriminate|]. intros [Hy Hm].
    assert (E : date_le START dt = true)
      by (apply date_le_spec; unfold on_or_before; simpl; lia).
    congruence.
Qed.

Lemma chars_hashable (s : string) : forallb hashable (chars s) = true.
Proof.
  unfold chars. induction (list_ascii_of_string s) as [|c cs IH]; simpl; auto.
Qed.

Lemma chars_single (s : string) (v : value) :
  In v (chars s) -> exists c, v = VStr (String c "").
Proof.
  unfold chars. intros H. apply in_map_iff in H. destruct H as (c & <- & _). eauto.
Qed.

(** X9. Teams given as one text instead of a list never pass the team
    check: the set is then built from the single characters of the text. *)
Theorem teams_given_as_text_never_pass (info : value) (s : string) :
  is_dict info = true ->
  field info "teams" VNone = VStr s ->
  team_check info = Ok false.
Proof.
  intros Hd Hs. apply is_dict_inv in Hd. destruct Hd as [kv ->].
  unfold team_check. rewrite py_get_dict. cbn [bind]. rewrite Hs.
  destruct (truthy (VStr s)) eqn:T.
  - rewrite (py_or_true _ _ T). cbn [py_iter bind]. unfold py_set.
    rewrite chars_hashable. cbn [bind]. f_equal.
    unfold issubset. cbn [forallb].
    destruct (py_in "India" (chars s)) eqn:I; [|reflexivity].
    apply py_in_spec in I. apply chars_single in I. destruct I as [c I].
    discriminate I.
  - rewrite (py_or_false _ _ T). reflexivity.
Qed.

(** X10. A list or a mapping among the teams cannot be put into the set:
    the team check raises TypeError.  [is_ind_eng_test] then raises too,
    unless the category check has already turned the document down, in
    which case the teams are not looked at. *)
Theorem unhashable_team_raises (info : value) (ts : list value) :
  is_dict info = true ->
  declared info "teams" = Ok ts ->
  forallb hashable ts = false ->
  team_check info = Raise TypeError
  /\ (forall c, category_rejects info = Ok c ->
                is_ind_eng_test info = if c then Ok false else Raise TypeError).
Proof.
  intros Hd Hts Hh.
  assert (E : team_check info = Raise TypeError).
  { apply is_dict_inv in Hd. destruct Hd as [kv ->].
    unfold team_check. rewrite py_get_dict. cbn [bind].
    unfold declared in Hts. rewrite Hts. cbn [bind].
    unfold py_set. rewrite Hh. reflexivity. }
  split; [exact E|].
  intros c Hc. unfold is_ind_eng_test. rewrite Hc. cbn [bind].
  destruct c; [reflexivity | exact E].
Qed.

(** X16. The innings are read without a guard for null: a document
    without the "innings" key yields no rows, one whose "innings" is
    null, a number or a truth value raises TypeError. *)
Theorem null_innings_raises (obj : value) (m : match_fields) :
  match_fields_of obj = Ok m ->
  (lookup obj "innings" = None -> flatten_match obj = Ok [])
  /\ (forall v, lookup obj "innings" = Some v -> iterable v = false ->
                flatten_match obj = Raise TypeError).
Proof.
  intros Hm.
  assert (Hd : is_dict obj = true).
  { unfold match_fields_of in Hm. apply bind_ok in Hm. destruct Hm as (i & Hi & _).
    apply py_get_ok in Hi. destruct Hi as [Hd _]. exact Hd. }
  apply is_dict_inv in Hd. destruct Hd as [kv ->].
  unfold flatten_match. rewrite Hm, py_get_dict. cbn [bind]. unfold field.
  split.
  - intros ->. reflexivity.
  - intros v -> I. destruct v; try discriminate; reflexivity.
Qed.

(* ---------------------------------------------------------------- *)
(** ** Further properties of the run *)

Lemma for_each_app {A S : Type} (xs ys : list A) (body : A -> S -> result S) (s : S) :
  for_each (xs ++ ys) body s = (s' <- for_each xs body s ;; for_each ys body s').
Proof.
  revert s. induction xs as [|x rest IH]; intros s; simpl; [reflexivity|].
  destruct (body x s); simpl; [apply IH | reflexivity].
Qed.

Lemma scan_entry_appends (e : entry) (acc : list Ball.t) :
  scan_entry e acc = (rs <- scan_entry e [] ;; Ok (acc ++ rs)%list).
Proof.
  unfold scan_entry. destruct (content e) as [obj|]; simpl;
    [|rewrite app_nil_r; reflexivity].
  destruct (py_get obj "info" (VDict [])) as [info|]; simpl; [|reflexivity].
  destruct (is_ind_eng_test info) as [[|]|]; simpl;
    [|rewrite app_nil_r; reflexivity | reflexivity].
  destruct (within_series_window info) as [[|]|]; simpl;
    [|rewrite app_nil_r; reflexivity | reflexivity].
  destruct (flatten_match obj); reflexivity.
Qed.

Lemma adds_scan (e : entry) (rs : list Ball.t) :
  adds e rs -> endswith (name e) ".json" = true -> scan_entry e [] = Ok rs.
Proof.
  unfold scan_entry.
  intros [(_ & obj & -> & (info & Hi & Ha & Hw) & Hf)|[Hign ->]] Hend.
  - rewrite Hi. cbn [bind]. rewrite Ha. cbn [bind negb]. rewrite Hw. cbn [bind negb].
    rewrite Hf. reflexivity.
  - destruct Hign as [Hn|[->|(obj & info & -> & Hi & Hrej)]];
      [congruence | reflexivity |].
    rewrite Hi. cbn [bind].
    destruct Hrej as [->|[-> ->]]; reflexivity.
Qed.

Lemma scan_adds (zf : list entry) (rss : list (list Ball.t)) :
  Forall2 adds zf rss ->
  for_each (filter (fun e => endswith (name e) ".json") zf) scan_entry []
  = Ok (List.concat rss).
Proof.
  induction 1 as [|e rs zf rss Hadd F IH]; [reflexivity|].
  cbn [filter List.concat].
  destruct (endswith (name e) ".json") eqn:Hend.
  - cbn [for_each]. rewrite (adds_scan e rs Hadd Hend). cbn [bind].
    rewrite (for_each_appends _ scan_entry_appends), IH. reflexivity.
  - destruct Hadd as [(Hn & _)|[_ ->]]; [congruence | exact IH].
Qed.

(** X14. Documents that pass the filters but hold no delivery do not
    count: when every accepted document flattens to no row, [main] ends
    with the same SystemExit as when no document is accepted, and writes
    nothing. *)
Theorem main_accepted_without_rows_is_fatal (zf : list entry) (rss : list (list Ball.t))
        (out_csv : option string) :
  Forall2 adds zf rss ->
  (forall rs, In rs rss -> rs = []) ->
  main (Ok zf) out_csv = (Raise (SystemExit OUT_MSG), out_csv).
Proof.
  intros F Hall. unfold main, finish. rewrite (scan_adds zf rss F).
  assert (E : List.concat rss = []).
  { clear F. induction rss as [|rs rss IH]; [reflexivity|]. simpl.
    rewrite (Hall rs (or_introl eq_refl)). apply IH.
    intros x Hx. apply Hall. right. exact Hx. }
  rewrite E. reflexivity.
Qed.

(** X15. Nothing catches what the filters and the flattener raise: the
    first scanned document that is not a mapping ends the run with
    AttributeError, an accepted document that fails to flatten ends it
    with the exception of [flatten_match]; the rows collected so far are
    dropped and no file is written. *)
Theorem main_aborts_when_a_document_fails (zf1 zf2 : list entry)
        (rss : list (list Ball.t)) (e : entry) (obj : value) (out_csv : option string) :
  Forall2 adds zf1 rss ->
  endswith (name e) ".json" = true ->
  content e = Some obj ->
  (is_dict obj = false ->
   main (Ok (zf1 ++ e :: zf2)%list) out_csv = (Raise AttributeError, out_csv))
  /\ (forall ex, passes_filters obj -> flatten_match obj = Raise ex ->
                 main (Ok (zf1 ++ e :: zf2)%list) out_csv = (Raise ex, out_csv)).
Proof.
  intros F Hend Hc.
  assert (E : forall ex, (forall acc, scan_entry e acc = Raise ex) ->
                         main (Ok (zf1 ++ e :: zf2)%list) out_csv = (Raise ex, out_csv)).
  { intros ex Hex. unfold main, finish. rewrite filter_app. cbn [filter]. rewrite Hend.
    rewrite for_each_app, (scan_adds zf1 rss F). cbn [bind for_each].
    rewrite Hex. reflexivity. }
  split.
  - intros Hd. apply E. intros acc. unfold scan_entry. rewrite Hc.
    destruct obj; try discriminate; reflexivity.
  - intros ex (info & Hi & Ha & Hw) Hf. apply E. intros acc.
    unfold scan_entry. rewrite Hc, Hi. cbn [bind]. rewrite Ha. cbn [bind negb].
    rewrite Hw. cbn [bind negb]. rewrite Hf. reflexivity.
Qed.

(* ---------------------------------------------------------------- *)
(** ** The run on the stored members *)

Lemma for_each_ext {A S : Type} (xs : list A) (b1 b2 : A -> S -> result S) (s : S) :
  (forall x, In x xs -> forall s', b1 x s' = b2 x s') ->
  for_each xs b1 s = for_each xs b2 s.
Proof.
  revert s. induction xs as [|x rest IH]; intros s H; simpl; [reflexivity|].
  rewrite (H x (or_introl eq_refl)). destruct (b2 x s); simpl; [|reflexivity].
  apply IH. intros y Hy. apply H. right. exact Hy.
Qed.

Lemma getinfo_none (zf : list member) (n : string) :
  (forall m, In m zf -> stored_as m <> n) -> getinfo zf n = None.
Proof.
  induction zf as [|m rest IH]; intros H; simpl; [reflexivity|].
  rewrite IH by (intros m' Hm'; apply H; right; exact Hm').
  destruct (String.eqb_spec (stored_as m) n) as [E|_]; [|reflexivity].
  exfalso. apply (H m (or_introl eq_refl)). exact E.
Qed.

Lemma getinfo_other (zf1 zf2 : list member) (m : member) (n : string) :
  stored_as m <> n -> getinfo (zf1 ++ m :: zf2) n = getinfo (zf1 ++ zf2) n.
Proof.
  intros Hn. induction zf1 as [|a rest IH]; simpl.
  - destruct (getinfo zf2 n); [reflexivity|].
    destruct (String.eqb_spec (stored_as m) n); [contradiction | reflexivity].
  - rewrite IH. reflexivity.
Qed.

Lemma getinfo_last (zf1 zf2 : list member) (m : member) :
  (forall m', In m' zf2 -> stored_as m' <> stored_as m) ->
  getinfo (zf1 ++ m :: zf2) (stored_as m) = Some m.
Proof.
  intros H. induction zf1 as [|a rest IH]; simpl.
  - rewrite (getinfo_none zf2 _ H), String.eqb_refl. reflexivity.
  - rewrite IH. reflexivity.
Qed.

Lemma scan_name_other (zf1 zf2 : list member) (m : member) (n : string)
      (rows : list Ball.t) :
  stored_as m <> n ->
  scan_name (zf1 ++ m :: zf2) n rows = scan_name (zf1 ++ zf2) n rows.
Proof.
  intros Hn. unfold scan_name, zip_open. rewrite (getinfo_other _ _ _ _ Hn). reflexivity.
Qed.

Lemma scan_name_appends (zf : list member) (n : string) (acc : list Ball.t) :
  scan_name zf n acc = (rs <- scan_name zf n [] ;; Ok (acc ++ rs)%list).
Proof.
  unfold scan_name. destruct (zip_open zf n) as [c|ex]; cbn [bind]; [|reflexivity].
  apply scan_entry_appends.
Qed.

Lemma scan_name_adds (zf : list member) (n : string) (rs : list Ball.t) :
  endswith n ".json" = true -> read_adds zf n rs -> scan_name zf n [] = Ok rs.
Proof.
  unfold read_adds, scan_name. intros Hend. rewrite Hend.
  intros (c & -> & Hadd). cbn [bind]. apply (adds_scan _ _ Hadd). exact Hend.
Qed.

Lemma scan_names_adds (zf : list member) (names : list string)
      (rss : list (list Ball.t)) :
  Forall2 (read_adds zf) names rss ->
  for_each (filter (fun n => endswith n ".json") names) (scan_name zf) []
  = Ok (List.concat rss).
Proof.
  induction 1 as [|n rs names rss Hadd F IH]; [reflexivity|].
  cbn [filter List.concat].
  destruct (endswith n ".json") eqn:Hend.
  - cbn [for_each]. rewrite (scan_name_adds zf n rs Hend Hadd). cbn [bind].
    rewrite (for_each_appends _ (scan_name_appends zf)), IH. reflexivity.
  - unfold read_adds in Hadd. rewrite Hend in Hadd. subst rs. exact IH.
Qed.

(** [main] and [main_on_zip] are one run: on an archive whose .json names
    all open, the run on the stored members is the run on the reads. *)
Lemma main_on_zip_reads (zf : list member) (out_csv : option string) :
  (forall n, In n (namelist zf) -> endswith n ".json" = true ->
             is_ok (zip_open zf n) = true) ->
  main_on_zip (Ok zf) out_csv = main (Ok (reads zf)) out_csv.
Proof.
  intros Hopen. unfold main_on_zip, main, reads, namelist. f_equal.
  assert (G : forall l s,
             (forall m, In m l -> In (stored_as m) (map stored_as zf)) ->
             for_each (filter (fun n => endswith n ".json") (map stored_as l))
                      (scan_name zf) s
             = for_each
                 (filter (fun e => endswith (name e) ".json")
                    (map (fun m => mkentry (stored_as m)
                                           (match zip_open zf (stored_as m) with
                                            | Ok c => c
                                            | Raise _ => None
                                            end)) l))
                 scan_entry s).
  { induction l as [|m l IH]; intros s Hl; [reflexivity|].
    cbn [map filter name].
    destruct (endswith (stored_as m) ".json") eqn:Hend.
    - cbn [for_each]. unfold scan_name at 1.
      pose proof (Hopen (stored_as m) (Hl m (or_introl eq_refl)) Hend) as Ho.
      destruct (zip_open zf (stored_as m)) as [c|ex]; [|discriminate]. cbn [bind].
      destruct (scan_entry (mkentry (stored_as m) c) s); cbn [bind]; [|reflexivity].
      apply IH. intros m' Hm'. apply Hl. right. exact Hm'.
    - apply IH. intros m' Hm'. apply Hl. right. exact Hm'. }
  apply G. intros m Hm. apply in_map. exact Hm.
Qed.

(** X12. A stored member can be taken out of the archive without
    changing what the run does when its name does not end in ".json", or
    when no other member is stored under its name and it opens to
    something the scan passes over (it does not parse, or a filter turns
    its document down). *)
Theorem main_passes_over_ignorable_entries (zf1 zf2 : list member) (m : member)
        (out_csv : option string) :
  endswith (stored_as m) ".json" = false
  \/ ((forall m', In m' (zf1 ++ zf2)%list -> stored_as m' <> stored_as m)
      /\ exists c, opens_to m = Ok c /\ ignorable (mkentry (stored_as m) c)) ->
  main_on_zip (Ok (zf1 ++ m :: zf2)%list) out_csv
  = main_on_zip (Ok (zf1 ++ zf2)%list) out_csv.
Proof.
  intros H. unfold main_on_zip, namelist. f_equal.
  rewrite !map_app, !filter_app. cbn [map filter].
  destruct (endswith (stored_as m) ".json") eqn:Hend.
  - destruct H as [H|[Huniq (c & Hc & Hign)]]; [discriminate|].
    assert (Hother : forall l, (forall m', In m' l -> In m' (zf1 ++ zf2)%list) ->
              forall s, for_each (filter (fun n => endswith n ".json") (map stored_as l))
                                 (scan_name (zf1 ++ m :: zf2)%list) s
                        = for_each (filter (fun n => endswith n ".json") (map stored_as l))
                                   (scan_name (zf1 ++ zf2)%list) s).
    { intros l Hl s. apply for_each_ext. intros n Hn s'.
      apply scan_name_other. apply filter_In in Hn. destruct Hn as [Hn _].
      apply in_map_iff in Hn. destruct Hn as (m' & <- & Hm').
      intros E. apply (Huniq m' (Hl m' Hm')). symmetry. exact E. }
    rewrite !for_each_app.
    rewrite (Hother zf1) by (intros m' Hm'; apply in_or_app; left; exact Hm').
    destruct (for_each (filter (fun n => endswith n ".json") (map stored_as zf1))
                       (scan_name (zf1 ++ zf2)%list) []) as [rows|ex];
      cbn [bind for_each]; [|reflexivity].
    assert (Hm : scan_name (zf1 ++ m :: zf2)%list (stored_as m) rows = Ok rows).
    { unfold scan_name, zip_open. rewrite getinfo_last.
      - rewrite Hc. cbn [bind]. rewrite scan_entry_appends.
        rewrite (adds_scan _ [] (or_intror (conj Hign eq_refl)) Hend).
        cbn [bind]. rewrite app_nil_r. reflexivity.
      - intros m' Hm'. apply Huniq. apply in_or_app. right. exact Hm'. }
    rewrite Hm. cbn [bind].
    apply Hother. intros m' Hm'. apply in_or_app. right. exact Hm'.
  - rewrite <- !filter_app. apply for_each_ext. intros n Hn s'.
    apply scan_name_other. apply filter_In in Hn. destruct Hn as [_ Hn].
    intros E. rewrite E in Hend. congruence.
Qed.

(** X13. When every scanned name opens and what is read under it is
    passed over or accepted and flattened, and rows result, the writer is
    given exactly the rows of the accepted documents, name after name in
    the order of the archive, each name read as the last member stored
    under it; what becomes of the file and how the run ends is then the
    writer's doing. *)
Theorem main_writes_rows_in_archive_order (zf : list member) (rss : list (list Ball.t))
        (out_csv : option string) :
  Forall2 (read_adds zf) (namelist zf) rss ->
  List.concat rss <> [] ->
  main_on_zip (Ok zf) out_csv
  = match dataframe_csv (List.concat rss) with
    | Unwritten e => (Raise e, out_csv)
    | Written text ending => (ending, Some text)
    end.
Proof.
  intros F Hne. unfold main_on_zip, finish. rewrite (scan_names_adds zf _ rss F).
  destruct (List.concat rss) as [|r rows]; [contradiction|]. reflexivity.
Qed.

(** X17. Two members stored under one .json name are both listed and
    both opened as the later one: the document of the earlier member is
    never read, and the rows of the later one go to the writer twice. *)
Theorem name_stored_twice_is_read_twice (m1 m2 : member) (c : option value)
        (rs : list Ball.t) (out_csv : option string) :
  stored_as m1 = stored_as m2 ->
  opens_to m2 = Ok c ->
  contributes (mkentry (stored_as m2) c) rs ->
  rs <> [] ->
  main_on_zip (Ok [m1; m2]) out_csv
  = match dataframe_csv (rs ++ rs)%list with
    | Unwritten e => (Raise e, out_csv)
    | Written text ending => (ending, Some text)
    end.
Proof.
  intros Hname Hopen Hc Hne.
  assert (Hend : endswith (stored_as m2) ".json" = true) by (destruct Hc as [E _]; exact E).
  assert (R : read_adds [m1; m2] (stored_as m2) rs).
  { unfold read_adds. rewrite Hend. exists c. split; [|left; exact Hc].
    unfold zip_open. cbn [getinfo]. rewrite String.eqb_refl. exact Hopen. }
  assert (F : Forall2 (read_adds [m1; m2]) (namelist [m1; m2]) [rs; rs]).
  { unfold namelist. cbn [map]. rewrite Hname.
    constructor; [exact R|]. constructor; [exact R | constructor]. }
  unfold main_on_zip, finish. rewrite (scan_names_adds _ _ _ F).
  cbn [List.concat]. rewrite app_nil_r.
  destruct rs as [|r rs']; [contradiction | reflexivity].
Qed.

(** X18. Opening a member is outside the [try] that guards decoding: a
    scanned name whose member cannot be opened ends the run with the
    exception of [zf.open]; the rows collected so far are dropped and the
    file is left as it was. *)
Theorem unopenable_member_ends_the_run (zf : list member) (names1 names2 : list string)
        (n : string) (rss : list (list Ball.t)) (ex : exn) (out_csv : option string) :
  namelist zf = (names1 ++ n :: names2)%list ->
  Forall2 (read_adds zf) names1 rss ->
  endswith n ".json" = true ->
  zip_open zf n = Raise ex ->
  main_on_zip (Ok zf) out_csv = (Raise ex, out_csv).
Proof.
  intros Hnames F Hend Hopen. unfold main_on_zip. rewrite Hnames, filter_app.
  cbn [filter]. rewrite Hend, for_each_app, (scan_names_adds zf names1 rss F).
  cbn [bind for_each]. unfold scan_name at 1. rewrite Hopen. reflexivity.
Qed.

End Script.

(* ------------------------------------------------------------------ *)
(** ** The embedding on the specification's examples *)

Example accepts_test_in_window :
  let info := VDict [("teams", VList [VStr "India"; VStr "England"]);
                     ("dates", VList [VStr "2025-06-20"]);
                     ("match_type", VStr "Test")] in
  is_ind_eng_test info = Ok true
  /\ within_series_window iso_ymd Sample.repr info = Ok true.
Proof. split; reflexivity. Qed.

Example rejects_date_outside_window :
  within_series_window iso_ymd Sample.repr
    (VDict [("teams", VList [VStr "India"; VStr "England"]);
            ("dates", VList [VStr "2024-01-01"])]) = Ok false.
Proof. reflexivity. Qed.

Example window_is_closed :
  within_series_window iso_ymd Sample.repr (VDict [("dates", VList [VStr "2025-06-01"])]) = Ok true
  /\ within_series_window iso_ymd Sample.repr (VDict [("dates", VList [VStr "2025-08-31"])]) = Ok true
  /\ within_series_window iso_ymd Sample.repr (VDict [("dates", VList [VStr "2025-05-31"])]) = Ok false
  /\ within_series_window iso_ymd Sample.repr (VDict [("dates", VList [VStr "2025-09-01"])]) = Ok false.
Proof. repeat split; reflexivity. Qed.

Example rejects_other_teams : is_ind_eng_test Sample.other_info = Ok false.
Proof. reflexivity. Qed.

Example accepts_without_match_type :
  is_ind_eng_test (VDict [("teams", VList [VStr "India"; VStr "England"]);
                          ("dates", VList [VStr "2025-06-20"])]) = Ok true.
Proof. reflexivity. Qed.

Example category_is_case_insensitive :
  is_ind_eng_test (VDict [("teams", VList [VStr "England"; VStr "India"]);
                          ("match_type", VStr "TEST")]) = Ok true.
Proof. reflexivity. Qed.

(** A document that gives a match_type_number but no match_type has the
    empty category, which is not "test". *)
Example match_type_number_alone_rejects :
  is_ind_eng_test (VDict [("teams", VList [VStr "England"; VStr "India"]);
                          ("match_type_number", VInt 2590)]) = Ok false.
Proof. reflexivity. Qed.

(** Innings are numbered from 1 in document order. *)
Example innings_numbers :
  match flatten_match Sample.repr Sample.doc with
  | Ok balls => map Ball.innings balls = [1; 1; 1; 2]
  | Raise _ => False
  end.
Proof. reflexivity. Qed.

(** The runs breakdown is read without the [or {}] that guards extras: a
    null "runs" makes the row fail, a null "extras" does not. *)
Example null_runs_raises :
  delivery_row Sample.repr Sample.fields 1 VNone VNone (VDict [("runs", VNone)])
  = Raise AttributeError
  /\ is_ok (delivery_row Sample.repr Sample.fields 1 VNone VNone
                         (VDict [("extras", VNone)])) = true.
Proof. split; reflexivity. Qed.

(** A subfield that is present keeps its value, null included. *)
Example null_subfield_is_kept :
  match delivery_row Sample.repr Sample.fields 1 VNone VNone
                     (VDict [("runs", VDict [("batter", VNone)])]) with
  | Ok r => Ball.runs_batter r = VNone /\ Ball.runs_total r = VInt 0
  | Raise _ => False
  end.
Proof. split; reflexivity. Qed.

(* ------------------------------------------------------------------ *)
(** ** The theorems at the sample documents *)

Lemma flatten_match_one_row_per_delivery_witness :
  wf_document Sample.doc = true
  /\ exists balls, flatten_match Sample.repr Sample.doc = Ok balls
                   /\ List.length balls = 4%nat.
Proof.
  split; [reflexivity|].
  destruct (flatten_match_one_row_per_delivery Sample.repr Sample.doc eq_refl)
    as (m & balls & _ & Hb & Hlen & _).
  exists balls. split; [exact Hb|]. rewrite Hlen. reflexivity.
Defined.

Lemma category_check_rejects_witness :
  is_dict Sample.odi_info = true /\ category_rejects Sample.odi_info = Ok true.
Proof.
  split; [reflexivity|].
  assert (Htxt : category_is_text Sample.odi_info).
  { intros v H _. injection H as <-. reflexivity. }
  destruct (category_check_rejects Sample.odi_info eq_refl Htxt) as (b & E & Hiff & _).
  rewrite E. f_equal. apply Hiff. split.
  - left. exists (VStr "ODI"). split; reflexivity.
  - discriminate.
Defined.

Lemma wicket_fields_of_first_entry_witness :
  exists r,
    delivery_row Sample.repr Sample.fields 1 (VStr "England") (VInt 0) Sample.two_wickets = Ok r
    /\ wicket_entries Sample.two_wickets = [Sample.caught; Sample.run_out]
    /\ Ball.wicket_kind r = VStr "caught"
    /\ Ball.wicket_fielders r = VStr "A,B".
Proof.
  eexists. split; [reflexivity|]. split; [reflexivity|].
  destruct (wicket_fields_of_first_entry Sample.repr Sample.fields 1 (VStr "England")
              (VInt 0) Sample.two_wickets _ Sample.caught [Sample.run_out]
              eq_refl eq_refl) as (Hk & _ & _ & HAB).
  split; [exact Hk|].
  apply (HAB Sample.run_out (VDict [("name", VStr "A")]) (VDict [("name", VStr "B")]));
    reflexivity.
Defined.

Lemma within_series_window_any_date_witness :
  declared Sample.info "dates" = Ok [VStr "not a date"; VStr "2025-06-20"]
  /\ within_series_window iso_ymd Sample.repr Sample.info = Ok true.
Proof.
  split; [reflexivity|].
  destruct (within_series_window_any_date iso_ymd Sample.repr Sample.info
              [VStr "not a date"; VStr "2025-06-20"] eq_refl eq_refl)
    as (b & E & Hiff & _).
  rewrite E. f_equal. apply Hiff.
  exists (VStr "2025-06-20"). split; [right; left; reflexivity|].
  exists (mkdate 2025 6 20). split; [reflexivity|].
  unfold on_or_before. simpl. split; right; (split; [reflexivity|]).
  - right. split; [reflexivity | lia].
  - left. lia.
Defined.

Lemma team_check_superset_witness :
  declared Sample.three_teams_info "teams"
    = Ok [VStr "England"; VStr "Reserve"; VStr "India"]
  /\ team_check Sample.three_teams_info = Ok true.
Proof.
  split; [reflexivity|].
  destruct (team_check_superset Sample.three_teams_info
              [VStr "England"; VStr "Reserve"; VStr "India"] eq_refl eq_refl eq_refl)
    as (b & E & Hiff & _).
  rewrite E. f_equal. apply Hiff. simpl. auto.
Defined.

Lemma omitted_numeric_subfields_are_zero_witness :
  wf_delivery Sample.plain = true
  /\ exists r,
       delivery_row Sample.repr Sample.fields 1 (VStr "England") (VInt 0) Sample.plain = Ok r
       /\ Ball.runs_batter r = VInt 4
       /\ Ball.runs_extras r = VInt 0
       /\ Ball.extra_wides r = VInt 0.
Proof.
  split; [reflexivity|].
  destruct (omitted_numeric_subfields_are_zero Sample.repr Sample.fields 1
              (VStr "England") (VInt 0) Sample.plain eq_refl eq_refl)
    as (r & Hr & _ & Hre & _ & _ & _ & Hxw & _).
  exists r. split; [exact Hr|].
  split; [|split; [apply Hre; reflexivity | apply Hxw; reflexivity]].
  assert (E : Ok r = delivery_row Sample.repr Sample.fields 1 (VStr "England") (VInt 0)
                                  Sample.plain) by (symmetry; exact Hr).
  vm_compute in E. injection E as ->. reflexivity.
Defined.

Lemma no_wicket_gives_null_fields_witness :
  wicket_entries Sample.plain = []
  /\ exists r,
       delivery_row Sample.repr Sample.fields 1 (VStr "England") (VInt 0) Sample.plain = Ok r
       /\ Ball.wicket_kind r = VNone
       /\ Ball.wicket_player_out r = VNone
       /\ Ball.wicket_fielders r = VNone.
Proof.
  split; [reflexivity|].
  apply (no_wicket_gives_null_fields Sample.repr Sample.fields 1 (VStr "England")
           (VInt 0) Sample.plain); reflexivity.
Defined.

Lemma main_no_match_is_fatal_witness :
  main iso_ymd Sample.repr Sample.to_csv (Ok Sample.archive) None
  = (Raise (SystemExit OUT_MSG), None).
Proof.
  assert (Hscan : forall obj, scanned Sample.archive obj -> obj = Sample.other_doc).
  { intros obj (e & Hin & _ & Hc). simpl in Hin.
    destruct Hin as [<-|[<-|[<-|[]]]]; simpl in Hc; try discriminate.
    injection Hc as <-. reflexivity. }
  apply main_no_match_is_fatal.
  - intros obj Hs (info & Hi & Ha & _). rewrite (Hscan obj Hs) in Hi.
    injection Hi as <-. discriminate Ha.
  - intros obj Hs. rewrite (Hscan obj Hs).
    exists Sample.other_info, false. split; [reflexivity|].
    split; [reflexivity | discriminate].
Defined.

Lemma match_id_falls_back_to_event_witness :
  lookup Sample.info "match_id" = None
  /\ exists balls, flatten_match Sample.repr Sample.doc = Ok balls
                   /\ balls <> []
                   /\ forall r, In r balls -> Ball.match_id r = VInt 3.
Proof.
  split; [reflexivity|].
  eexists. split; [reflexivity|]. split; [discriminate|].
  intros r Hin.
  apply (match_id_falls_back_to_event Sample.repr Sample.doc _ eq_refl eq_refl r Hin).
Defined.

Lemma fielderless_wickets_give_empty_string_witness :
  exists r,
    delivery_row Sample.repr Sample.fields 1 (VStr "England") (VInt 1) Sample.bowled_ball = Ok r
    /\ wicket_entries Sample.bowled_ball = [Sample.bowled]
    /\ Ball.wicket_fielders r = VStr "".
Proof.
  eexists. split; [reflexivity|]. split; [reflexivity|].
  apply (fielderless_wickets_give_empty_string Sample.repr Sample.fields 1
           (VStr "England") (VInt 1) Sample.bowled_ball _ eq_refl).
  - discriminate.
  - intros w [<-|[]]. reflexivity.
Defined.

(* ------------------------------------------------------------------ *)
(** ** The further properties at the sample documents *)

Lemma rows_carry_their_position_witness :
  exists balls,
    flatten_match Sample.repr Sample.doc = Ok balls
    /\ Forall2
         (fun p r =>
            Ball.innings r = pos_no p
            /\ Ball.batting_team r = field (pos_innings p) "team" VNone
            /\ Ball.over r = field (pos_over p) "over" VNone
            /\ Ball.ball_label r = field (pos_delivery p) "ball" VNone
            /\ Ball.batter r = field (pos_delivery p) "batter" VNone
            /\ Ball.bowler r = field (pos_delivery p) "bowler" VNone
            /\ Ball.non_striker r = field (pos_delivery p) "non_striker" VNone)
         (encounter_order Sample.doc) balls.
Proof.
  eexists. split; [reflexivity|].
  apply (rows_carry_their_position Sample.repr Sample.doc _ eq_refl).
Defined.

Lemma innings_number_is_document_place_witness :
  exists balls,
    flatten_match Sample.repr Sample.doc = Ok balls
    /\ forall r, In r balls -> 1 <= Ball.innings r <= 2.
Proof.
  eexists. split; [reflexivity|]. intros r Hin.
  destruct (innings_number_is_document_place Sample.repr Sample.doc _ r eq_refl Hin)
    as [H _].
  exact H.
Defined.

Lemma innings_numbers_never_decrease_witness :
  exists balls,
    flatten_match Sample.repr Sample.doc = Ok balls
    /\ StronglySorted Z.le (map Ball.innings balls).
Proof.
  eexists. split; [reflexivity|].
  apply (innings_numbers_never_decrease Sample.repr Sample.doc _ eq_refl).
Defined.

Lemma rows_repeat_match_data_witness :
  exists balls,
    flatten_match Sample.repr Sample.doc = Ok balls
    /\ forall r, In r balls ->
         Ball.venue r = VNone
         /\ Ball.date_list r = "not a date,2025-06-20"
         /\ Ball.teams r = "India,England".
Proof.
  eexists. split; [reflexivity|]. intros r Hin.
  destruct (rows_repeat_match_data Sample.repr Sample.doc _ r eq_refl Hin)
    as (Hv & _ & _ & Hd & names & Hn & Ht).
  split; [exact Hv|]. split; [exact Hd|].
  vm_compute in Hn. injection Hn as <-. exact Ht.
Defined.

Lemma match_id_prefers_info_witness :
  exists balls,
    flatten_match Sample.repr Sample.id_doc = Ok balls
    /\ balls <> []
    /\ forall r, In r balls -> Ball.match_id r = VInt 77.
Proof.
  eexists. split; [reflexivity|]. split; [discriminate|]. intros r Hin.
  destruct (match_id_prefers_info Sample.repr Sample.id_doc _ r eq_refl Hin) as [H _].
  apply H. reflexivity.
Defined.

Lemma one_bad_delivery_fails_the_match_witness :
  In (mkpos 1 Sample.broken_innings Sample.broken_over Sample.bad_delivery)
     (encounter_order Sample.broken_doc)
  /\ is_ok (flatten_match Sample.repr Sample.broken_doc) = false.
Proof.
  assert (Hin : In (mkpos 1 Sample.broken_innings Sample.broken_over Sample.bad_delivery)
                   (encounter_order Sample.broken_doc))
    by (right; left; reflexivity).
  split; [exact Hin|].
  eapply (one_bad_delivery_fails_the_match Sample.repr Sample.broken_doc _ _ eq_refl Hin).
  reflexivity.
Defined.

Lemma non_string_team_raises_witness :
  delivery_row Sample.repr Sample.odd_fields 1 VNone VNone Sample.plain = Raise TypeError.
Proof.
  apply (non_string_team_raises Sample.repr Sample.odd_fields 1 VNone VNone Sample.plain
           [VInt 20250620] [VStr "India"; VInt 7]); reflexivity.
Defined.

Lemma within_series_window_raises_exactly_witness :
  within_series_window iso_ymd Sample.repr (VList []) = Raise AttributeError
  /\ within_series_window iso_ymd Sample.repr (VDict [("dates", VInt 20250620)])
     = Raise TypeError
  /\ within_series_window iso_ymd Sample.repr (VDict [("dates", VNone)]) = Ok false.
Proof.
  split; [|split].
  - apply (proj1 (within_series_window_raises_exactly iso_ymd Sample.repr (VList []))).
    reflexivity.
  - apply (proj2 (within_series_window_raises_exactly iso_ymd Sample.repr
                    (VDict [("dates", VInt 20250620)])) eq_refl); reflexivity.
  - apply (proj2 (within_series_window_raises_exactly iso_ymd Sample.repr
                    (VDict [("dates", VNone)])) eq_refl); reflexivity.
Defined.

Lemma teams_given_as_text_never_pass_witness :
  team_check (VDict [("teams", VStr "India,England")]) = Ok false.
Proof.
  apply (teams_given_as_text_never_pass _ "India,England"); reflexivity.
Defined.

Lemma unhashable_team_raises_witness :
  team_check (VDict [("teams", VList [VStr "India"; VStr "England"; VList []])])
  = Raise TypeError.
Proof.
  apply (unhashable_team_raises
           (VDict [("teams", VList [VStr "India"; VStr "England"; VList []])])
           [VStr "India"; VStr "England"; VList []]); reflexivity.
Defined.

Lemma window_is_june_to_august_2025_witness :
  iso_ymd "2025-07-15" = Some (mkdate 2025 7 15)
  /\ within_series_window iso_ymd Sample.repr (VDict [("dates", VList [VStr "2025-07-15"])])
     = Ok true.
Proof.
  split; [reflexivity|].
  destruct (window_is_june_to_august_2025 iso_ymd Sample.repr
              (VDict [("dates", VList [VStr "2025-07-15"])])
              (VStr "2025-07-15") (mkdate 2025 7 15) eq_refl eq_refl eq_refl)
    as (b & E & Hiff).
  - simpl. lia.
  - rewrite E. f_equal. apply Hiff. simpl. lia.
Defined.

Lemma null_innings_raises_witness :
  flatten_match Sample.repr (VDict [("info", Sample.info); ("innings", VNone)])
  = Raise TypeError
  /\ flatten_match Sample.repr Sample.empty_doc = Ok [].
Proof.
  split.
  - eapply (proj2 (null_innings_raises Sample.repr
                     (VDict [("info", Sample.info); ("innings", VNone)]) _ eq_refl)
                  VNone); reflexivity.
  - eapply (proj1 (null_innings_raises Sample.repr Sample.empty_doc _ eq_refl)).
    reflexivity.
Defined.

Lemma sample_other_ignorable : ignorable iso_ymd Sample.repr Sample.other_entry.
Proof.
  right. right. exists Sample.other_doc, Sample.other_info.
  split; [reflexivity|]. split; [reflexivity|]. left. reflexivity.
Defined.

Lemma sample_doc_contributes :
  exists rows, rows <> []
               /\ contributes iso_ymd Sample.repr Sample.doc_entry rows.
Proof.
  eexists. split; [|split; [reflexivity|]].
  2:{ exists Sample.doc. split; [reflexivity|]. split; [|reflexivity].
      exists Sample.info. repeat split; reflexivity. }
  discriminate.
Defined.

Lemma main_accepted_without_rows_is_fatal_witness :
  passes_filters iso_ymd Sample.repr Sample.empty_doc
  /\ main iso_ymd Sample.repr Sample.to_csv (Ok [Sample.empty_entry]) None
     = (Raise (SystemExit OUT_MSG), None).
Proof.
  assert (P : passes_filters iso_ymd Sample.repr Sample.empty_doc)
    by (exists Sample.info; repeat split; reflexivity).
  split; [exact P|].
  apply (main_accepted_without_rows_is_fatal iso_ymd Sample.repr Sample.to_csv
           [Sample.empty_entry] [[]] None).
  - constructor; [|constructor]. left. split; [reflexivity|].
    exists Sample.empty_doc. split; [reflexivity|]. split; [exact P | reflexivity].
  - intros rs [<-|[]]. reflexivity.
Defined.

Lemma main_aborts_when_a_document_fails_witness :
  main iso_ymd Sample.repr Sample.to_csv
       (Ok ([Sample.doc_entry] ++ Sample.list_entry :: [Sample.empty_entry])%list) None
  = (Raise AttributeError, None)
  /\ main iso_ymd Sample.repr Sample.to_csv
          (Ok ([Sample.doc_entry] ++ Sample.broken_entry :: [])%list) None
     = (Raise AttributeError, None).
Proof.
  destruct sample_doc_contributes as (rows & _ & Hc).
  assert (F : Forall2 (adds iso_ymd Sample.repr) [Sample.doc_entry] [rows])
    by (constructor; [left; exact Hc | constructor]).
  split.
  - apply (proj1 (main_aborts_when_a_document_fails iso_ymd Sample.repr Sample.to_csv
                    [Sample.doc_entry] [Sample.empty_entry] [rows] Sample.list_entry
                    (VList []) None F eq_refl eq_refl)).
    reflexivity.
  - apply (proj2 (main_aborts_when_a_document_fails iso_ymd Sample.repr Sample.to_csv
                    [Sample.doc_entry] [] [rows] Sample.broken_entry
                    Sample.broken_doc None F eq_refl eq_refl)).
    + exists Sample.info. repeat split; reflexivity.
    + reflexivity.
Defined.

Lemma sample_doc_read_adds (zf : list member) :
  zip_open zf "1.json" = Ok (Some Sample.doc) ->
  exists rows, List.length rows = 4%nat
               /\ read_adds iso_ymd Sample.repr zf "1.json" rows.
Proof.
  intros Hopen. eexists. split; [|hnf; exists (Some Sample.doc); split; [exact Hopen|]].
  2:{ left. split; [reflexivity|]. exists Sample.doc. split; [reflexivity|].
      split; [|reflexivity]. exists Sample.info. repeat split; reflexivity. }
  reflexivity.
Defined.

Lemma main_passes_over_ignorable_entries_witness :
  main_on_zip iso_ymd Sample.repr Sample.to_csv
              (Ok ([Sample.doc_member] ++ Sample.other_member :: [])%list) None
  = main_on_zip iso_ymd Sample.repr Sample.to_csv
                (Ok ([Sample.doc_member] ++ [])%list) None.
Proof.
  apply main_passes_over_ignorable_entries. right. split.
  - intros m' [<-|[]]. discriminate.
  - exists (Some Sample.other_doc). split; [reflexivity | exact sample_other_ignorable].
Defined.

Lemma main_writes_rows_in_archive_order_witness :
  main_on_zip iso_ymd Sample.repr Sample.to_csv
              (Ok [Sample.other_member; Sample.doc_member]) None
  = (Ok tt, Some "4").
Proof.
  destruct (sample_doc_read_adds [Sample.other_member; Sample.doc_member] eq_refl)
    as (rows & Hlen & Hadd).
  rewrite (main_writes_rows_in_archive_order iso_ymd Sample.repr Sample.to_csv
             [Sample.other_member; Sample.doc_member] [[]; rows] None).
  - change (List.concat [[]; rows]) with (rows ++ [])%list.
    unfold Sample.to_csv. rewrite app_nil_r, Hlen. reflexivity.
  - constructor; [|constructor; [exact Hadd | constructor]].
    hnf. exists (Some Sample.other_doc). split; [reflexivity|].
    right. split; [exact sample_other_ignorable | reflexivity].
  - change (List.concat [[]; rows]) with (rows ++ [])%list.
    rewrite app_nil_r. intros E. rewrite E in Hlen. discriminate.
Defined.

Lemma name_stored_twice_is_read_twice_witness :
  main_on_zip iso_ymd Sample.repr Sample.to_csv
              (Ok [Sample.junk_member; Sample.doc_member]) None
  = (Ok tt, Some "8").
Proof.
  destruct sample_doc_contributes as (rows & Hne & Hc).
  assert (Hlen : List.length rows = 4%nat).
  { destruct Hc as (_ & obj & Ho & _ & Hf). injection Ho as <-.
    assert (E : Ok rows = flatten_match Sample.repr Sample.doc) by (symmetry; exact Hf).
    vm_compute in E. injection E as ->. reflexivity. }
  rewrite (name_stored_twice_is_read_twice iso_ymd Sample.repr Sample.to_csv
             Sample.junk_member Sample.doc_member (Some Sample.doc) rows None
             eq_refl eq_refl Hc Hne).
  unfold Sample.to_csv. rewrite length_app, Hlen. reflexivity.
Defined.

Lemma unopenable_member_ends_the_run_witness :
  main_on_zip iso_ymd Sample.repr Sample.to_csv
              (Ok [Sample.doc_member; Sample.locked_member]) None
  = (Raise (LibraryError "RuntimeError"), None).
Proof.
  destruct (sample_doc_read_adds [Sample.doc_member; Sample.locked_member] eq_refl)
    as (rows & _ & Hadd).
  apply (unopenable_member_ends_the_run iso_ymd Sample.repr Sample.to_csv
           [Sample.doc_member; Sample.locked_member] ["1.json"] [] "9.json" [rows]).
  - reflexivity.
  - constructor; [exact Hadd | constructor].
  - reflexivity.
  - reflexivity.
Defined.
